(** * Instrument form: state controller, image uploader and upload client

    A shallow embedding of the three source files of the instrument form
    (the [useInstrumentForm] hook, the [ImageUploader] component and the
    [cloudinaryService] client) together with the properties of the
    form/image-state logic.

    The handlers are written in a small monad that threads the hook's
    state and a trace of the externally visible calls (toasts, alerts,
    network requests, released object URLs), and that distinguishes the
    three ways a JavaScript function body can end: normally, by [return],
    or by a thrown error.

    A handler reads the values its closure captured at the last render
    (its [snap] argument) and writes through the state setters, whose
    updaters see the current state.  A handler is run to completion: no
    other event is interleaved at its [await]s.  What the backend and the
    instrument service answer is an input of the handler. *)

From Stdlib Require Import DecimalString DecimalPos DecimalZ.
From stdpp Require Import gmap strings list.

Local Open Scope string_scope.
Local Open Scope list_scope.
Local Open Scope nat_scope.

(** ** JavaScript values *)

Module Js.

(** The decimal numeral of an integer, as [String(z)] prints it. *)
Definition numeral (z : Z) : string := NilZero.string_of_int (Z.to_int z).

(** The numbers of the host language.  The form only coerces strings to
    numbers ([Number]) and tests numbers for truthiness, so the number
    type is kept behind this interface. *)
Class JsNumber := {
  num : Type;
  (** [Number(s)] on a string. *)
  Number : string → num;
  (** [!!n]: false on zero and on NaN. *)
  num_truthy : num → bool;
  (** the number an integer denotes *)
  num_of_Z : Z → num;
  num_truthy_of_Z : ∀ z, num_truthy (num_of_Z z) = negb (z =? 0)%Z;
  Number_numeral : ∀ z, Number (numeral z) = num_of_Z z
}.

Section Values.
Context {J : JsNumber}.

Inductive JsVal :=
| VUndefined
| VNull
| VBool (b : bool)
| VNum (n : num)
| VStr (s : string)
| VArr (l : list string).

(** [!!v] *)
Definition truthy (v : JsVal) : bool :=
  match v with
  | VUndefined | VNull => false
  | VBool b => b
  | VNum n => num_truthy n
  | VStr s => negb (String.eqb s "")
  | VArr _ => true
  end.

(** [a || b] *)
Definition js_or (a b : JsVal) : JsVal := if truthy a then a else b.

(** [o.k] on an object: [undefined] when the key is absent. *)
Definition get (o : gmap string JsVal) (k : string) : JsVal :=
  default VUndefined (o !! k).

End Values.

Infix "||:" := js_or (at level 50, left associativity).

(** What a rejected promise or a [throw] carries, as far as the form
    inspects it: [error.response?.status] and [error.message]. *)
Record JsError := {
  status : option Z;
  message : option string
}.

(** [error.message || fallback] *)
Definition message_or (e : JsError) (fallback : string) : string :=
  match message e with
  | Some m => if String.eqb m "" then fallback else m
  | None => fallback
  end.

(** The TypeError of a method call on [undefined]. *)
Definition TypeError (m : string) : JsError :=
  {| status := None; message := Some m |}.

End Js.

Import Js.

(** ** State, effects and the handler monad *)

Module File.
(** A [File] picked in the file input, as far as the uploader reads it. *)
Record t := { name : string; type : string }.
End File.

(** One uploaded image's metadata: [{url}] for an image that already
    existed, the full descriptor for a freshly uploaded one. *)
Record ImageDescriptor := {
  url : string;
  publicId : option string;
  width : option Z;
  height : option Z;
  format : option string
}.

(** [response.data] of the backend's upload endpoint. *)
Record UploadResponse := {
  secureUrl : string;
  r_publicId : string;
  r_width : Z;
  r_height : Z;
  r_format : string
}.

(** A JavaScript object used as a record: a finite map from its keys. *)
Abbreviation Obj := (gmap string JsVal).

Section Model.
Context {J : JsNumber}.

(** The [useState] cells of [useInstrumentForm] (the category list, which
    no handler below reads, is left out). *)
Record State := {
  formData : Obj;
  imageFiles : list File.t;
  imagePreviews : list string;
  existingImages : list string;
  imageData : list ImageDescriptor;
  initialLoad : bool
}.

(** Calls that leave the component, in the order they are made. *)
Inductive Effect :=
| PreventDefault
| RevokeObjectURL (u : string)
| ErrorToast (msg : string)
| SuccessToast (msg : string)
| Alert (msg : string)
| ConsoleError (msg : string)
| UploadRequest (file : File.t)
| UpdateRequest (payload : Obj)
| CreateRequest (payload : Obj)
| ContextUpdateInstrument (r : Obj)
| ContextAddInstrument (r : Obj)
| OnClose
| SetIsUploading (b : bool).

Record World := { hook : State; trace : list Effect }.

(** How a statement ends. *)
Inductive Res (A : Type) :=
| Normal (a : A)
| Returned
| Threw (e : JsError).
Global Arguments Normal {A} a.
Global Arguments Returned {A}.
Global Arguments Threw {A} e.

Definition M (A : Type) : Type := World → Res A * World.

Definition ret {A} (a : A) : M A := λ w, (Normal a, w).

Definition bind {A B} (m : M A) (k : A → M B) : M B := λ w,
  match m w with
  | (Normal a, w') => k a w'
  | (Returned, w') => (Returned, w')
  | (Threw e, w') => (Threw e, w')
  end.

(** [return;] *)
Definition return_ {A} : M A := λ w, (Returned, w).

(** [throw e] *)
Definition throw {A} (e : JsError) : M A := λ w, (Threw e, w).

(** [try { m } catch (error) { h error }] *)
Definition try_catch (m : M unit) (h : JsError → M unit) : M unit := λ w,
  match m w with
  | (Threw e, w') => h e w'
  | r => r
  end.

(** [try { m } finally { f }], for an [f] that ends normally. *)
Definition try_finally (m : M unit) (f : M unit) : M unit := λ w,
  match m w with
  | (r, w') =>
      match f w' with
      | (Normal _, w'') => (r, w'')
      | (r', w'') => (r', w'')
      end
  end.

(** The body of a function: a [return] inside it ends the call normally. *)
Definition function (body : M unit) : M unit := λ w,
  match body w with
  | (Returned, w') => (Normal tt, w')
  | r => r
  end.

(** A call that leaves the component. *)
Definition emit (e : Effect) : M unit := λ w,
  (Normal tt, {| hook := hook w; trace := trace w ++ [e] |}).

(** A state setter called with an updater. *)
Definition update (f : State → State) : M unit := λ w,
  (Normal tt, {| hook := f (hook w); trace := trace w |}).

(** [if (c) { m }] *)
Definition when (c : bool) (m : M unit) : M unit := if c then m else ret tt.

End Model.

Declare Scope js_scope.
Delimit Scope js_scope with js.
Notation "x ← m ; k" := (bind m (λ x, k))
  (at level 20, m at level 100, k at level 200, only parsing) : js_scope.
Notation "m ;; k" := (bind m (λ _, k))
  (at level 100, k at level 200, only parsing, right associativity) : js_scope.
Local Open Scope js_scope.

(** ** Host-language helpers *)

Section Host.
Context {J : JsNumber}.

(** [s.startsWith(p)]; a TypeError when [s] is [undefined]. *)
Definition startsWith (s : option string) (p : string) : M bool :=
  match s with
  | Some s => ret (String.prefix p s)
  | None => throw (TypeError "Cannot read properties of undefined (reading 'startsWith')")
  end.

(** [!!s] for an array element that is a string or [undefined]. *)
Definition defined_nonempty (s : option string) : bool :=
  match s with
  | Some s => negb (String.eqb s "")
  | None => false
  end.

(** [URL.revokeObjectURL(u)]; the argument is coerced to a string. *)
Definition revokeObjectURL (u : option string) : M unit :=
  emit (RevokeObjectURL (default "undefined" u)).

(** [l.forEach(f)] *)
Fixpoint forEach {A} (f : A → M unit) (l : list A) : M unit :=
  match l with
  | [] => ret tt
  | x :: l' => f x;; forEach f l'
  end.

(** [l.filter((x, i) => p x i)], the index counted from [i]. *)
Fixpoint filter_from {A} (p : A → nat → bool) (i : nat) (l : list A) : list A :=
  match l with
  | [] => []
  | x :: l' => if p x i then x :: filter_from p (S i) l' else filter_from p (S i) l'
  end.

Definition js_filter {A} (p : A → nat → bool) (l : list A) : list A :=
  filter_from p 0 l.

(** The state setters, called with an updater [prev => ...]. *)
Definition setFormData (f : Obj → Obj) : M unit :=
  update (λ st, {| formData := f (formData st); imageFiles := imageFiles st;
                   imagePreviews := imagePreviews st; existingImages := existingImages st;
                   imageData := imageData st; initialLoad := initialLoad st |}).

Definition setImageFiles (f : list File.t → list File.t) : M unit :=
  update (λ st, {| formData := formData st; imageFiles := f (imageFiles st);
                   imagePreviews := imagePreviews st; existingImages := existingImages st;
                   imageData := imageData st; initialLoad := initialLoad st |}).

Definition setImagePreviews (f : list string → list string) : M unit :=
  update (λ st, {| formData := formData st; imageFiles := imageFiles st;
                   imagePreviews := f (imagePreviews st); existingImages := existingImages st;
                   imageData := imageData st; initialLoad := initialLoad st |}).

Definition setExistingImages (f : list string → list string) : M unit :=
  update (λ st, {| formData := formData st; imageFiles := imageFiles st;
                   imagePreviews := imagePreviews st; existingImages := f (existingImages st);
                   imageData := imageData st; initialLoad := initialLoad st |}).

Definition setImageData (f : list ImageDescriptor → list ImageDescriptor) : M unit :=
  update (λ st, {| formData := formData st; imageFiles := imageFiles st;
                   imagePreviews := imagePreviews st; existingImages := existingImages st;
                   imageData := f (imageData st); initialLoad := initialLoad st |}).

Definition setInitialLoad (b : bool) : M unit :=
  update (λ st, {| formData := formData st; imageFiles := imageFiles st;
                   imagePreviews := imagePreviews st; existingImages := existingImages st;
                   imageData := imageData st; initialLoad := b |}).

(** An event handler fired on a freshly rendered component: the state its
    closure captured is the current one. *)
Definition fire (handler : State → M unit) (w : World) : Res unit * World :=
  handler (hook w) w.

End Host.

(** ** cloudinaryService *)

Module cloudinaryService.
Section Client.
Context {J : JsNumber}.

(** What the backend answers to the [i]-th upload request of a batch. *)
Definition Backend := nat → File.t → JsError + UploadResponse.

(** [uploadImageViaBackend(file)]: posts the file to
    [/api/cloudinary/upload] and returns [response.data]; a transport
    error is logged and thrown again. *)
Definition uploadImageViaBackend (backend : Backend) (i : nat) (file : File.t)
  : M UploadResponse :=
  emit (UploadRequest file);;
  match backend i file with
  | inr data => ret data
  | inl error => emit (ConsoleError "Error al subir imagen vía backend:");; throw error
  end.

End Client.
End cloudinaryService.

(** ** useInstrumentForm *)

Module Target.
(** [e.target] of a change event. *)
Record t := { name : string; value : string; type : string; checked : bool }.
End Target.

(** The two callbacks of the instrument context; each may be missing. *)
Record InstrumentContext := { addInstrument : bool; updateInstrument : bool }.

Section Hook.
Context {J : JsNumber}.

(** [instrumentService]: the answer to an update and to a create request. *)
Record InstrumentService := {
  service_updateInstrument : Obj → JsError + Obj;
  service_createInstrument : Obj → JsError + Obj
}.

(** [await service(payload)] *)
Definition await (request : Effect) (answer : JsError + Obj) : M Obj :=
  emit request;;
  match answer with
  | inr r => ret r
  | inl error => throw error
  end.

(** [const isEditMode = !!instrumentToEdit] *)
Definition isEditMode_of (instrumentToEdit : option Obj) : bool :=
  match instrumentToEdit with Some _ => true | None => false end.

(** The empty form of [useState] and of [resetForm]. *)
Definition emptyFormData : Obj :=
  <["name" := VStr ""]> (<["brand" := VStr ""]> (<["model" := VStr ""]>
  (<["year" := VStr ""]> (<["stock" := VStr ""]> (<["description" := VStr ""]>
  (<["price" := VStr ""]> (<["available" := VBool false]>
  (<["idCategory" := VStr ""]> (<["imageUrls" := VArr []]> ∅))))))))).

(** The form seeded from the record being edited. *)
Definition hydratedFormData (instrumentToEdit : Obj) : Obj :=
  <["id" := get instrumentToEdit "id" ||: get instrumentToEdit "idProduct"]>
  (<["name" := get instrumentToEdit "name" ||: VStr ""]>
  (<["brand" := get instrumentToEdit "brand" ||: VStr ""]>
  (<["model" := get instrumentToEdit "model" ||: VStr ""]>
  (<["year" := get instrumentToEdit "year" ||: VStr ""]>
  (<["stock" := get instrumentToEdit "stock" ||: VStr ""]>
  (<["description" := get instrumentToEdit "description" ||: VStr ""]>
  (<["price" := get instrumentToEdit "price" ||: VStr ""]>
  (<["available" := get instrumentToEdit "available" ||: VBool false]>
  (<["idCategory" := get instrumentToEdit "idCategory" ||: VStr ""]>
  (<["imageUrls" := VArr []]> ∅)))))))))).

(** The effect that loads the record in edit mode.  [imageUrls] is read
    as the code reads it: an array seeds the three image cells when it is
    not empty; a non-empty string passes the guard and fails at [.map]
    (the error unmounts the component, so the two setter calls before it
    are not observable); any other value fails the guard. *)
Definition hydrateEffect (instrumentToEdit : option Obj) (snap : State) : M unit :=
  let isEditMode := isEditMode_of instrumentToEdit in
  match instrumentToEdit with
  | Some record =>
      when (isEditMode && initialLoad snap)
        (setFormData (λ _, hydratedFormData record);;
         match get record "imageUrls" with
         | VArr imageUrls =>
             when (Nat.ltb 0 (length imageUrls))
               (setExistingImages (λ _, imageUrls);;
                setImagePreviews (λ _, imageUrls);;
                setImageData (λ _,
                  map (λ url, {| url := url; publicId := None; width := None;
                                 height := None; format := None |}) imageUrls))
         | VStr s =>
             when (Nat.ltb 0 (String.length s))
               (throw (TypeError "instrumentToEdit.imageUrls.map is not a function"))
         | _ => ret tt
         end;;
         setInitialLoad false)
  | None => ret tt
  end.

(** The effect that re-arms [initialLoad] when the form opens. *)
Definition openEffect (isOpen : bool) : M unit :=
  when isOpen (setInitialLoad true).

(** [resetForm] *)
Definition resetForm (snap : State) : M unit :=
  forEach (λ url,
      c ← startsWith (Some url) "blob:";
      when c (revokeObjectURL (Some url)))
    (imagePreviews snap);;
  setFormData (λ _, emptyFormData);;
  setImageFiles (λ _, []);;
  setImagePreviews (λ _, []);;
  setExistingImages (λ _, []);;
  setImageData (λ _, []).

(** The effect that cleans up when the form is closed, and resets the
    form when it opens in create mode. *)
Definition cleanupEffect (isOpen isEditMode : bool) (snap : State) : M unit :=
  if negb isOpen then
    forEach (λ url,
        c ← startsWith (Some url) "blob:";
        when c (revokeObjectURL (Some url)))
      (imagePreviews snap)
  else if negb isEditMode && initialLoad snap then
    resetForm snap;;
    setInitialLoad false
  else ret tt.

(** [handleInputChange] *)
Definition handleInputChange (isEditMode : bool) (target : Target.t) : M unit :=
  let name := Target.name target in
  let value := Target.value target in
  let type := Target.type target in
  let checked := Target.checked target in
  function
    (when (isEditMode && negb (String.eqb name "idCategory")) return_;;
     setFormData (λ prev,
       <[name :=
           if String.eqb type "checkbox" then VBool checked
           else if String.eqb name "idCategory" then VNum (Number value)
           else if String.eqb name "available" then VBool (String.eqb value "true")
           else VStr value]> prev)).

(** [removeImage] *)
Definition removeImage (isEditMode : bool) (snap : State) (index : nat) : M unit :=
  function
    (when isEditMode return_;;
     try_catch
       (let isExistingImage := Nat.ltb index (length (existingImages snap)) in
        (if isExistingImage then
           let imageUrl := existingImages snap !! index in
           setExistingImages (js_filter (λ _ i, negb (Nat.eqb i index)));;
           setImagePreviews (js_filter (λ url _, bool_decide (Some url ≠ imageUrl)))
         else
           let newIndex := index - length (existingImages snap) in
           c ← (if defined_nonempty (imagePreviews snap !! index)
                then startsWith (imagePreviews snap !! index) "blob:"
                else ret false);
           when c (revokeObjectURL (imagePreviews snap !! index));;
           setImageFiles (js_filter (λ _ i, negb (Nat.eqb i newIndex)));;
           setImagePreviews (js_filter (λ _ i, negb (Nat.eqb i index))));;
        setImageData (js_filter (λ _ i, negb (Nat.eqb i index))))
       (λ error,
          emit (ConsoleError "Error al eliminar imagen:");;
          emit (ErrorToast "Error al eliminar la imagen"))).

(** [handleClose] *)
Definition handleClose (snap : State) : M unit :=
  resetForm snap;;
  emit OnClose.

(** [handleSubmit] *)
Definition handleSubmit (isEditMode : bool) (context : InstrumentContext)
    (instrumentService : InstrumentService) (snap : State) : M unit :=
  function
    (emit PreventDefault;;
     try_catch
       (when (negb (truthy (get (formData snap) "idCategory")))
          (emit (ErrorToast "Debes seleccionar una categoría.");; return_);;
        (if isEditMode then
           let categoryUpdateData : Obj :=
             <["id" := get (formData snap) "id"]>
             (<["idCategory" := get (formData snap) "idCategory"]> ∅) in
           updatedInstrument ←
             await (UpdateRequest categoryUpdateData)
                   (service_updateInstrument instrumentService categoryUpdateData);
           when (updateInstrument context)
             (emit (ContextUpdateInstrument updatedInstrument));;
           emit (SuccessToast "Categoría del instrumento actualizada con éxito.")
         else
           when (Nat.eqb (length (imageData snap)) 0 && Nat.eqb (length (imageFiles snap)) 0)
             (emit (ErrorToast "Debes agregar al menos una imagen.");; return_);;
           imageUrls ←
             (if Nat.ltb 0 (length (imageData snap))
              then ret (map url (imageData snap))
              else emit (ErrorToast "Las imágenes aún no se han subido correctamente.");;
                   return_);
           let payload : Obj := <["imageUrls" := VArr imageUrls]> (formData snap) in
           newInstrument ←
             await (CreateRequest payload)
                   (service_createInstrument instrumentService payload);
           when (addInstrument context)
             (emit (ContextAddInstrument newInstrument));;
           emit (SuccessToast "Instrumento agregado con éxito."));;
        handleClose snap)
       (λ error,
          emit (ConsoleError "Error completo:");;
          if bool_decide (status error = Some 409%Z) then
            emit (ErrorToast "El instrumento ya existe. Intenta con otro nombre.")
          else if bool_decide (status error = Some 400%Z) then
            emit (ErrorToast "Datos inválidos. Revisa el formulario.")
          else if bool_decide (status error = Some 500%Z) then
            emit (ErrorToast "Error en el servidor. Inténtalo más tarde.")
          else
            emit (ErrorToast
              (message_or error
                 ("Error al " ++
                  (if isEditMode then "actualizar la categoría" else "crear") ++
                  " el instrumento."))))).

End Hook.

(** ** ImageUploader *)

Section Uploader.
Context {J : JsNumber}.

(** The body of [for (const file of validFiles)]: one upload, awaited,
    then the two appends; [i] numbers the requests of the batch. *)
Fixpoint uploadEach (backend : cloudinaryService.Backend) (hasSetImageData : bool)
    (i : nat) (validFiles : list File.t) : M unit :=
  match validFiles with
  | [] => ret tt
  | file :: rest =>
      response ← cloudinaryService.uploadImageViaBackend backend i file;
      setImagePreviews (λ prev, (prev ++ [secureUrl response])%list);;
      when hasSetImageData
        (setImageData (λ prev, (prev ++
           [{| url := secureUrl response;
               publicId := Some (r_publicId response);
               width := Some (r_width response);
               height := Some (r_height response);
               format := Some (r_format response) |}])%list));;
      uploadEach backend hasSetImageData (S i) rest
  end.

(** [handleImageUpload], with the component's props: [isEditMode], the
    [imagePreviews] it was rendered with, and whether the optional
    [setImageData] and [setImageFiles] callbacks were passed. *)
Definition handleImageUpload (isEditMode : bool) (imagePreviews : list string)
    (hasSetImageData hasSetImageFiles : bool)
    (backend : cloudinaryService.Backend) (files : list File.t) : M unit :=
  function
    (when isEditMode return_;;
     let totalImages := length imagePreviews in
     when (Nat.ltb 5 (length files + totalImages))
       (emit (Alert "Máximo 5 imágenes permitidas");; return_);;
     let validFiles :=
       List.filter (λ file, String.prefix "image/" (File.type file)) files in
     when (negb (Nat.eqb (length validFiles) (length files)))
       (emit (Alert "Solo se permiten archivos de imagen");; return_);;
     emit (SetIsUploading true);;
     try_finally
       (try_catch
          (when hasSetImageFiles (setImageFiles (λ prev, (prev ++ validFiles)%list));;
           uploadEach backend hasSetImageData 0 validFiles)
          (λ error,
             emit (ConsoleError "Error en la carga de imágenes:");;
             emit (Alert "Error al subir imagen")))
       (emit (SetIsUploading false))).

End Uploader.

(** ** JSON answers *)

Section Answers.
Context {J : JsNumber}.

Local Unset Elimination Schemes.

(** A value a service resolves with. *)
Inductive Json :=
| JUndefined
| JNull
| JBool (b : bool)
| JNum (n : num)
| JStr (s : string)
| JArr (items : list Json)
| JObj (fields : gmap string Json).

Local Set Elimination Schemes.

(** [!!v] *)
Definition json_truthy (v : Json) : bool :=
  match v with
  | JUndefined | JNull => false
  | JBool b => b
  | JNum n => num_truthy n
  | JStr s => negb (String.eqb s "")
  | JArr _ | JObj _ => true
  end.

(** [v.k], for a key [k] that is no built-in property: a TypeError on
    [undefined] and [null], [undefined] when the key is absent. *)
Definition member (v : Json) (k : string) : JsError + Json :=
  match v with
  | JUndefined | JNull => inl (TypeError ("Cannot read properties of undefined (reading '" ++ k ++ "')"))
  | JObj fields => inr (default JUndefined (fields !! k))
  | _ => inr JUndefined
  end.

(** [v?.k] *)
Definition optionalMember (v : Json) (k : string) : Json :=
  match v with
  | JObj fields => default JUndefined (fields !! k)
  | _ => JUndefined
  end.

(** The effect that loads the categories when the hook mounts, given what
    [instrumentService.getCategories()] settles with: the list handed to
    [setCategories] and the messages logged with [console.error]. *)
Definition fetchCategories (getCategories : JsError + Json) : list Json * list string :=
  let attempt : JsError + (list Json * list string) :=
    match getCategories with
    | inl error => inl error
    | inr data =>
        if json_truthy (optionalMember (optionalMember data "response") "categories") then
          match member data "response" with
          | inl error => inl error
          | inr response =>
              match member response "categories" with
              | inl error => inl error
              | inr (JArr categories) => inr (categories, [])
              | inr _ => inr ([], ["La API no devolvió un array:"])
              end
          end
        else inr ([], ["La API no devolvió un array:"])
    end in
  match attempt with
  | inr done => done
  | inl error => ([], ["Error al obtener categorías:"])
  end.

End Answers.

(** ** cloudinaryService: the requests *)

(** The three values read from the environment when the module loads. *)
Record Config := {
  CLOUDINARY_URL : string;
  CLOUDINARY_UPLOAD_PRESET : string;
  BACKEND_URL : string
}.

(** A field of a multipart form. *)
Inductive Part :=
| FilePart (file : File.t)
| TextPart (text : string).

(** A request handed to axios. *)
Inductive HttpRequest :=
| HttpPost (address : string) (body : list (string * Part))
| HttpDelete (address : string).

(** What a call of the client amounts to: the requests it made, the
    messages it logged with [console.error], and what its promise settles
    with. *)
Record Call (A : Type) := {
  requests : list HttpRequest;
  logged : list string;
  outcome : JsError + A
}.
Global Arguments requests {A} c.
Global Arguments logged {A} c.
Global Arguments outcome {A} c.

Section Requests.
Context {J : JsNumber}.

(** What axios answers to a request: [response.data], or the rejection. *)
Definition Transport := HttpRequest → JsError + Json.

(** [uploadImageDirect(file)] *)
Definition uploadImageDirect (config : Config) (axios : Transport) (file : File.t)
  : Call Json :=
  let formData :=
    [("file", FilePart file);
     ("upload_preset", TextPart (CLOUDINARY_UPLOAD_PRESET config))] in
  let request := HttpPost (CLOUDINARY_URL config) formData in
  match axios request with
  | inr data =>
      match member data "secure_url" with
      | inr secure_url => {| requests := [request]; logged := []; outcome := inr secure_url |}
      | inl error =>
          {| requests := [request];
             logged := ["Error al subir imagen a Cloudinary:"];
             outcome := inl error |}
      end
  | inl error =>
      {| requests := [request];
         logged := ["Error al subir imagen a Cloudinary:"];
         outcome := inl error |}
  end.

(** [deleteImage(publicId)] *)
Definition deleteImage (config : Config) (axios : Transport) (publicId : string)
  : Call Json :=
  let request :=
    HttpDelete (BACKEND_URL config ++ "/api/cloudinary/delete/" ++ publicId) in
  match axios request with
  | inr data => {| requests := [request]; logged := []; outcome := inr data |}
  | inl error =>
      {| requests := [request];
         logged := ["Error al eliminar imagen:"];
         outcome := inl error |}
  end.

End Requests.

(** * Vocabulary of the properties *)

Section Vocabulary.
Context {J : JsNumber}.

(** The metadata entry stored for an answer of the backend. *)
Definition descriptor (r : UploadResponse) : ImageDescriptor :=
  {| url := secureUrl r; publicId := Some (r_publicId r); width := Some (r_width r);
     height := Some (r_height r); format := Some (r_format r) |}.

(** The backend answers the requests numbered [i], [i+1], ... for [files]
    with the responses [rs], in this order. *)
Fixpoint answers (backend : cloudinaryService.Backend) (i : nat)
    (files : list File.t) (rs : list UploadResponse) : Prop :=
  match files, rs with
  | [], [] => True
  | file :: files', r :: rs' => backend i file = inr r ∧ answers backend (S i) files' rs'
  | _, _ => False
  end.

(** The state with [files], [urls] and [descs] appended to the three
    image cells. *)
Definition appended (st : State) (files : list File.t) (urls : list string)
    (descs : list ImageDescriptor) : State :=
  {| formData := formData st;
     imageFiles := imageFiles st ++ files;
     imagePreviews := imagePreviews st ++ urls;
     existingImages := existingImages st;
     imageData := imageData st ++ descs;
     initialLoad := initialLoad st |}.

(** The preview handles [resetForm] and the close effect release: the
    previews that start with [blob:], in order. *)
Definition blobs (previews : list string) : list string :=
  List.filter (String.prefix "blob:") previews.

(** The cells after [resetForm]; [initialLoad] is not touched. *)
Definition cleared (st : State) : State :=
  {| formData := emptyFormData; imageFiles := []; imagePreviews := [];
     existingImages := []; imageData := []; initialLoad := initialLoad st |}.

(** The form after [handleInputChange] has run for each of [targets]. *)
Definition edits (isEditMode : bool) (targets : list Target.t) (w : World) : World :=
  foldl (λ w target, snd (handleInputChange isEditMode target w)) w targets.

(** The calls that go to the network. *)
Definition isRequest (e : Effect) : bool :=
  match e with
  | UploadRequest _ | UpdateRequest _ | CreateRequest _ => true
  | _ => false
  end.

(** The fields of the record that default to the empty string. *)
Definition textFields : list string :=
  ["name"; "brand"; "model"; "year"; "stock"; "description"; "price"; "idCategory"].

(** The previews left after every entry equal to [v] is dropped. *)
Definition without (v : string) (previews : list string) : list string :=
  List.filter (λ url, bool_decide (url ≠ v)) previews.

(** How often [v] occurs in [previews]. *)
Definition occurrences (v : string) (previews : list string) : nat :=
  length (List.filter (λ url, bool_decide (url = v)) previews).

(** The object URLs released along a trace, in order. *)
Fixpoint revoked (t : list Effect) : list string :=
  match t with
  | [] => []
  | RevokeObjectURL u :: t' => u :: revoked t'
  | _ :: t' => revoked t'
  end.

(** What happens to the open form before it is closed. *)
Inductive Event :=
| SelectFiles (backend : cloudinaryService.Backend) (files : list File.t)
| RemoveImage (index : nat)
| Change (target : Target.t).

(** One event, handled against the state it finds; the uploader is wired
    to the setters the hook exports. *)
Definition step (isEditMode : bool) (e : Event) (w : World) : World :=
  match e with
  | SelectFiles backend files =>
      snd (fire (λ snap, handleImageUpload isEditMode (imagePreviews snap)
                           true true backend files) w)
  | RemoveImage index => snd (fire (λ snap, removeImage isEditMode snap index) w)
  | Change target => snd (handleInputChange isEditMode target w)
  end.

(** The events in turn, then [handleClose]. *)
Definition closing (isEditMode : bool) (events : list Event) (w : World) : World :=
  snd (fire handleClose (foldl (λ w e, step isEditMode e w) w events)).

(** The previews an event appends: those a file selection uploads. *)
Definition appendedBy (isEditMode : bool) (e : Event) (w : World) : list string :=
  match e with
  | SelectFiles _ _ =>
      drop (length (imagePreviews (hook w))) (imagePreviews (hook (step isEditMode e w)))
  | _ => []
  end.

(** The previews appended along the way. *)
Fixpoint added (isEditMode : bool) (events : list Event) (w : World) : list string :=
  match events with
  | [] => []
  | e :: events' =>
      appendedBy isEditMode e w ++ added isEditMode events' (step isEditMode e w)
  end.

(** Every preview the form holds at some point of the cycle. *)
Definition held (isEditMode : bool) (events : list Event) (w : World) : list string :=
  imagePreviews (hook w) ++ added isEditMode events w.

(** The toasts. *)
Definition isToast (e : Effect) : bool :=
  match e with
  | ErrorToast _ | SuccessToast _ => true
  | _ => false
  end.

(** The changes of the uploader's busy flag. *)
Definition isBusy (e : Effect) : bool :=
  match e with
  | SetIsUploading _ => true
  | _ => false
  end.

(** The alerts. *)
Definition isAlert (e : Effect) : bool :=
  match e with
  | Alert _ => true
  | _ => false
  end.

(** The previews line up with the metadata: entry by entry, the preview
    is the URL of the metadata. *)
Definition aligned (st : State) : Prop :=
  imagePreviews st = map url (imageData st).

(** The image cells fit together: the previews line up with the metadata,
    the existing images are the first previews, and no preview is listed
    twice. *)
Definition consistent (st : State) : Prop :=
  aligned st
  ∧ existingImages st `prefix_of` imagePreviews st
  ∧ NoDup (imagePreviews st).

End Vocabulary.

(** * Concrete inputs *)

(** A runtime for evaluating the handlers on concrete inputs:
    the numbers are the integers and NaN ([None]).  [Number] follows
    ECMAScript on integer numerals and on the empty string; every other
    string is sent to NaN, so fractional and exponent literals are outside
    this instance. *)
Definition IntNumber_Number (s : string) : option Z :=
  if String.eqb s "" then Some 0%Z
  else Z.of_int <$> NilZero.int_of_string s.

Definition IntNumber_truthy (n : option Z) : bool :=
  match n with
  | Some z => negb (z =? 0)%Z
  | None => false
  end.

#[export] Instance IntNumber : JsNumber.
Proof.
  refine {| num := option Z;
            Number := IntNumber_Number;
            num_truthy := IntNumber_truthy;
            num_of_Z := Some;
            num_truthy_of_Z := λ z, eq_refl;
            Number_numeral := _ |}.
  intros z. unfold IntNumber_Number, numeral.
  assert (Hne : NilZero.string_of_int (Z.to_int z) ≠ "").
  { unfold NilZero.string_of_int.
    destruct (Z.to_int z) as [d|d]; [|discriminate].
    unfold NilZero.string_of_uint. destruct d; discriminate. }
  destruct (String.eqb_spec (NilZero.string_of_int (Z.to_int z)) "") as [E|_];
    [by destruct Hne|].
  rewrite NilZero.isi.
  - simpl. by rewrite DecimalZ.of_to.
  - destruct z as [|p|p]; simpl; try discriminate.
    intros [= E]. by apply (DecimalPos.Unsigned.to_uint_nonnil p).
  - destruct z as [|p|p]; simpl; try discriminate.
    intros [= E]. by apply (DecimalPos.Unsigned.to_uint_nonnil p).
Defined.

(** Files, answers of the backend and of the service, and form states. *)

Definition png (name : string) : File.t := {| File.name := name; File.type := "image/png" |}.

Definition pdf (name : string) : File.t :=
  {| File.name := name; File.type := "application/pdf" |}.

Definition answer (u : string) : UploadResponse :=
  {| secureUrl := u; r_publicId := "instruments/" ++ u; r_width := 800; r_height := 600;
     r_format := "png" |}.

Definition bare (u : string) : ImageDescriptor :=
  {| url := u; publicId := None; width := None; height := None; format := None |}.

(** The form as it is mounted. *)
Definition mounted : State :=
  {| formData := emptyFormData; imageFiles := []; imagePreviews := [];
     existingImages := []; imageData := []; initialLoad := true |}.

Definition withCategory (st : State) (n : Z) : State :=
  {| formData := <["idCategory" := VNum (Some n)]> (formData st);
     imageFiles := imageFiles st; imagePreviews := imagePreviews st;
     existingImages := existingImages st; imageData := imageData st;
     initialLoad := initialLoad st |}.

Definition withImages (st : State) (files : list File.t) (previews existing : list string)
    : State :=
  {| formData := formData st; imageFiles := files; imagePreviews := previews;
     existingImages := existing; imageData := map bare previews;
     initialLoad := initialLoad st |}.

Definition start (st : State) : World := {| hook := st; trace := [] |}.

(** A backend that stores every file. *)
Definition storing : cloudinaryService.Backend :=
  λ i file, inr (answer ("https://res.example/" ++ File.name file)).

(** A backend that stores the first file and fails from the second on. *)
Definition failingAfterOne : cloudinaryService.Backend :=
  λ i file,
    match i with
    | 0 => inr (answer ("https://res.example/" ++ File.name file))
    | _ => inl {| status := Some 502%Z; message := Some "Bad Gateway" |}
    end.

(** A backend that answers with a local object URL. *)
Definition local : cloudinaryService.Backend :=
  λ i file, inr (answer ("blob:" ++ File.name file)).

Definition bothCallbacks : InstrumentContext :=
  {| addInstrument := true; updateInstrument := true |}.

(** A service that answers every request with the payload it was sent. *)
Definition echoing : InstrumentService :=
  {| service_updateInstrument := inr; service_createInstrument := inr |}.

(** A service whose requests all fail with [error]. *)
Definition failing (error : JsError) : InstrumentService :=
  {| service_updateInstrument := λ _, inl error;
     service_createInstrument := λ _, inl error |}.

Definition conflict : JsError :=
  {| status := Some 409%Z; message := Some "Request failed with status code 409" |}.

Definition typed (name value : string) : Target.t :=
  {| Target.name := name; Target.value := value; Target.type := "text";
     Target.checked := false |}.

Definition sixFiles : list File.t :=
  [png "1.png"; png "2.png"; png "3.png"; png "4.png"; png "5.png"; png "6.png"].

Definition threeFiles : list File.t := [png "1.png"; png "2.png"; png "3.png"].

Definition threeAnswers : list UploadResponse :=
  map answer ["https://res.example/1.png"; "https://res.example/2.png";
              "https://res.example/3.png"].

(** A create form with a category and one uploaded image. *)
Definition ready : State :=
  withImages (withCategory mounted 2) [png "1.png"] ["https://res.example/1.png"] [].

(** The form of a record [{id: 7, idCategory: 2}] opened for editing. *)
Definition editing : State :=
  {| formData :=
       hydratedFormData (<["id" := VNum (Some 7%Z)]> (<["idCategory" := VNum (Some 2%Z)]> ∅));
     imageFiles := []; imagePreviews := []; existingImages := []; imageData := [];
     initialLoad := false |}.

(** The form of a record [{id: 7}], which has no category. *)
Definition editingUncategorized : State :=
  {| formData := hydratedFormData (<["id" := VNum (Some 7%Z)]> ∅);
     imageFiles := []; imagePreviews := []; existingImages := []; imageData := [];
     initialLoad := false |}.

(** The record [{id: 7, idCategory: 2}]. *)
Definition guitar : Obj :=
  <["id" := VNum (Some 7%Z)]> (<["idCategory" := VNum (Some 2%Z)]> ∅).

(** A record without [id] and without [imageUrls], out of stock. *)
Definition drum : Obj :=
  <["idProduct" := VNum (Some 7%Z)]> (<["name" := VStr "Snare"]>
  (<["year" := VNum (Some 0%Z)]> (<["stock" := VNum (Some 0%Z)]>
  (<["idCategory" := VNum (Some 2%Z)]> ∅)))).

(** A form that still shows the image of the record edited before. *)
Definition stale : State :=
  withImages mounted [] ["https://res.example/old.png"] ["https://res.example/old.png"].

(** A create form with a local preview and an uploaded image. *)
Definition twoImages : State :=
  withImages (withCategory mounted 2) [png "a.png"; png "b.png"]
    ["blob:a"; "https://res.example/b.png"] [].

(** An edit form that shows the record's one image. *)
Definition shown : State :=
  withImages editing [] ["https://res.example/old.png"] ["https://res.example/old.png"].

(** A create form in which the same existing URL is listed twice. *)
Definition listedTwice : State :=
  withImages (withCategory mounted 2) []
    ["https://res.example/old.png"; "https://res.example/old.png"]
    ["https://res.example/old.png"; "https://res.example/old.png"].

(** An open create form that holds one local preview. *)
Definition onePreview : State :=
  {| formData := emptyFormData; imageFiles := [png "a.png"]; imagePreviews := ["blob:a"];
     existingImages := []; imageData := [bare "blob:a"]; initialLoad := false |}.

Definition cycle : list Event :=
  [SelectFiles local [png "c.png"]; RemoveImage 0; Change (typed "name" "Snare");
   SelectFiles storing [png "d.png"]].

(** The parent closes the form by turning [isOpen] off, without
    [handleClose], and opens it again in create mode.  On closing, the
    cleanup effect runs with [isOpen] false.  On opening, the open effect
    re-arms [initialLoad] and the cleanup effect runs against the same
    render, which still has [initialLoad] false; the render that follows
    runs the cleanup effect again, now with [initialLoad] true. *)
Definition closeThenReopen (w : World) : World :=
  let closed := snd (fire (cleanupEffect false false) w) in
  let opening := snd (cleanupEffect true false (hook closed) (snd (openEffect true closed))) in
  snd (fire (cleanupEffect true false) opening).

(** * Properties *)

(** ** Running the handlers *)

(** Unfolds the monad's combinators and the state setters. *)
Ltac run :=
  repeat (cbv beta delta
            [function bind when try_catch try_finally ret return_ throw emit
             update await fire setFormData setImageFiles setImagePreviews
             setExistingImages setImageData setInitialLoad revokeObjectURL
             startsWith];
          simpl).

#[global] Arguments resetForm : simpl never.
#[global] Arguments handleClose : simpl never.
#[global] Arguments uploadEach : simpl nomatch.
#[global] Arguments js_filter : simpl never.

Section ListFacts.
Context {A : Type}.

Lemma filter_from_passed (t i : nat) (l : list A) :
  t < i → filter_from (λ _ j, negb (Nat.eqb j t)) i l = l.
Proof.
  revert i. induction l as [|x l IH]; intros i Hti; [done|]. simpl.
  destruct (Nat.eqb_spec i t) as [->|_]; [lia|]. simpl.
  f_equal. apply IH. lia.
Qed.

Lemma filter_from_delete (index i : nat) (l : list A) :
  filter_from (λ _ j, negb (Nat.eqb j (i + index))) i l = delete index l.
Proof.
  revert index i. induction l as [|x l IH]; intros index i; [done|].
  destruct index as [|index]; simpl.
  - rewrite Nat.add_0_r, Nat.eqb_refl. simpl.
    apply filter_from_passed. lia.
  - destruct (Nat.eqb_spec i (i + S index)) as [E|_]; [lia|]. simpl.
    f_equal. rewrite <- (IH index (S i)). f_equal. 
    replace (i + S index) with (S i + index) by lia. done.
Qed.

(** [prev.filter((_, i) => i !== index)] deletes the entry at [index]. *)
Lemma js_filter_index (index : nat) (l : list A) :
  js_filter (λ _ i, negb (Nat.eqb i index)) l = delete index l.
Proof. apply (filter_from_delete index 0). Qed.

Lemma filter_from_value (p : A → bool) (i : nat) (l : list A) :
  filter_from (λ x _, p x) i l = List.filter p l.
Proof.
  revert i. induction l as [|x l IH]; intros i; [done|]. simpl.
  rewrite IH. done.
Qed.

Lemma length_delete_lt (index : nat) (l : list A) :
  index < length l → length (delete index l) = length l - 1.
Proof.
  intros H. rewrite length_delete by by apply lookup_lt_is_Some_2. lia.
Qed.

Lemma delete_ge (index : nat) (l : list A) :
  length l ≤ index → delete index l = l.
Proof.
  revert index. induction l as [|x l IH]; intros [|index] H; simpl in *; try done; try lia.
  f_equal. apply IH. lia.
Qed.

Lemma filter_length_le (p : A → bool) (l : list A) :
  length (List.filter p l) ≤ length l.
Proof. induction l as [|x l IH]; simpl; [done|]. destruct (p x); simpl; lia. Qed.

Lemma filter_length_lt (p : A → bool) (l : list A) (x : A) :
  x ∈ l → p x = false → length (List.filter p l) < length l.
Proof.
  induction 1 as [x l|x y l Hin IH]; intros Hp; simpl.
  - rewrite Hp. pose proof (filter_length_le p l). lia.
  - specialize (IH Hp). destruct (p y); simpl; lia.
Qed.

Lemma filter_all (p : A → bool) (l : list A) :
  (∀ x, x ∈ l → p x = true) → List.filter p l = l.
Proof.
  induction l as [|x l IH]; intros H; simpl; [done|].
  rewrite (H x) by by left. f_equal. apply IH. intros y Hy. apply H. by right.
Qed.

End ListFacts.

Section Properties.
Context {J : JsNumber}.

(** ** ImageUploader: rejected batches *)

(** C6. In create mode, a batch whose size plus the number of previews the
    component shows exceeds 5, or that holds a file whose media type does
    not start with [image/], is rejected as a whole: one alert is shown,
    no upload request is made and no state cell changes. *)
Theorem handleImageUpload_rejects_batch
    (previews : list string) (hasSetImageData hasSetImageFiles : bool)
    (backend : cloudinaryService.Backend) (files : list File.t) (w : World) :
  5 < length files + length previews ∨ (∃ file, file ∈ files ∧ String.prefix "image/" (File.type file) = false) →
  ∃ msg,
    handleImageUpload false previews hasSetImageData hasSetImageFiles backend files w
    = (Normal tt, {| hook := hook w; trace := trace w ++ [Alert msg] |}).
Proof.
  intros Hbad. unfold handleImageUpload. run.
  destruct (Nat.ltb_spec 5 (length files + length previews)) as [Hmany|Hfew].
  - eexists. run. reflexivity.
  - destruct Hbad as [Hmany|(file & Hin & Hty)]; [lia|]. run.
    pose proof (filter_length_lt
      (λ file, String.prefix "image/" (File.type file)) files file Hin Hty) as Hlt.
    destruct (Nat.eqb_spec
      (length (List.filter (λ file, String.prefix "image/" (File.type file)) files))
      (length files)) as [E|_]; [lia|].
    eexists. run. reflexivity.
Qed.

(** ** ImageUploader: accepted batches *)

Lemma answers_length backend i files rs :
  answers backend i files rs → length rs = length files.
Proof.
  revert i rs. induction files as [|f files IH]; intros i [|r rs]; simpl; try done.
  intros [_ H]. f_equal. by apply (IH (S i)).
Qed.

Lemma appended_nil st : appended st [] [] [] = st.
Proof. destruct st. unfold appended. simpl. by rewrite !app_nil_r. Qed.

Lemma appended_cons st u urls d descs :
  appended (appended st [] [u] [d]) [] urls descs = appended st [] (u :: urls) (d :: descs).
Proof. unfold appended. simpl. by rewrite !app_nil_r, <- !app_assoc. Qed.

Lemma uploadEach_succeeds backend i files rs w :
  answers backend i files rs →
  uploadEach backend true i files w
  = (Normal tt,
     {| hook := appended (hook w) [] (map secureUrl rs) (map descriptor rs);
        trace := trace w ++ map UploadRequest files |}).
Proof.
  revert i rs w. induction files as [|f files IH]; intros i [|r rs] w; simpl; try done.
  - intros _. unfold ret. rewrite appended_nil, app_nil_r. by destruct w.
  - intros [Hr Hrest]. unfold cloudinaryService.uploadImageViaBackend. run.
    rewrite Hr. run. rewrite (IH (S i) rs) by done. simpl.
    f_equal. f_equal.
    + unfold appended. simpl. by rewrite !app_nil_r, <- !app_assoc.
    + by rewrite <- app_assoc.
Qed.

Lemma uploadEach_fails backend i done f rest rs error w :
  answers backend i done rs →
  backend (i + length done) f = inl error →
  uploadEach backend true i (done ++ f :: rest) w
  = (Threw error,
     {| hook := appended (hook w) [] (map secureUrl rs) (map descriptor rs);
        trace := trace w ++ map UploadRequest (done ++ [f])
                   ++ [ConsoleError "Error al subir imagen vía backend:"] |}).
Proof.
  revert i rs w. induction done as [|g done IH]; intros i [|r rs] w; simpl; try done.
  - intros _ Hf. rewrite Nat.add_0_r in Hf.
    unfold cloudinaryService.uploadImageViaBackend. run. rewrite Hf. run.
    rewrite appended_nil. by rewrite <- app_assoc.
  - intros [Hr Hrest] Hf. unfold cloudinaryService.uploadImageViaBackend. run.
    rewrite Hr. run.
    rewrite (IH (S i) rs) by (try done; by rewrite <- Hf; f_equal; lia). simpl.
    f_equal. f_equal.
    + unfold appended. simpl. by rewrite !app_nil_r, <- !app_assoc.
    + by rewrite <- !app_assoc.
Qed.

(** C7. In create mode, with the setters the hook exports, a batch of [n]
    image files that fits under the limit and whose uploads all succeed
    appends exactly [n] entries to [imagePreviews] and to [imageData], in
    selection order: the [secureUrl] of each answer, and the descriptor
    built from each answer.  One request is made per file, in order. *)
Theorem handleImageUpload_appends_in_order
    (previews : list string) (backend : cloudinaryService.Backend)
    (files : list File.t) (rs : list UploadResponse) (w : World) :
  length files + length previews ≤ 5 →
  (∀ file, file ∈ files → String.prefix "image/" (File.type file) = true) →
  answers backend 0 files rs →
  handleImageUpload false previews true true backend files w
  = (Normal tt,
     {| hook := appended (hook w) files (map secureUrl rs) (map descriptor rs);
        trace := trace w ++ [SetIsUploading true] ++ map UploadRequest files
                   ++ [SetIsUploading false] |})
  ∧ length (map secureUrl rs) = length files
  ∧ length (map descriptor rs) = length files.
Proof.
  intros Hfit Himg Hans. split.
  - unfold handleImageUpload. run.
    destruct (Nat.ltb_spec 5 (length files + length previews)) as [Hmany|_]; [lia|].
    rewrite (filter_all _ files Himg), Nat.eqb_refl. run.
    rewrite (uploadEach_succeeds backend 0 files rs) by done. simpl.
    f_equal. f_equal.
    + unfold appended. simpl. by rewrite !app_nil_r.
    + by rewrite <- !app_assoc.
  - rewrite !length_map. split; by apply (answers_length backend 0).
Qed.

(** C10. In create mode, with the setters the hook exports, when the
    uploads of the files [done] succeed and the upload of the next file
    [f] fails, [imageFiles] has received every file of the batch (they
    are appended before the first request), while [imagePreviews] and
    [imageData] have received one entry per file of [done] only.  So the
    batch adds more files than metadata entries, and a state in which
    [imageData] lined up with [existingImages] followed by [imageFiles]
    no longer does. *)
Theorem handleImageUpload_partial_failure
    (previews : list string) (backend : cloudinaryService.Backend)
    (done : list File.t) (f : File.t) (rest : list File.t)
    (rs : list UploadResponse) (error : JsError) (w : World) :
  length (done ++ f :: rest) + length previews ≤ 5 →
  (∀ file, file ∈ done ++ f :: rest → String.prefix "image/" (File.type file) = true) →
  answers backend 0 done rs →
  backend (length done) f = inl error →
  ∃ w',
    handleImageUpload false previews true true backend (done ++ f :: rest) w
    = (Normal tt, w')
    ∧ imageFiles (hook w') = imageFiles (hook w) ++ (done ++ f :: rest)
    ∧ imagePreviews (hook w') = imagePreviews (hook w) ++ map secureUrl rs
    ∧ imageData (hook w') = imageData (hook w) ++ map descriptor rs
    ∧ existingImages (hook w') = existingImages (hook w)
    ∧ length rs = length done
    ∧ length done < length (done ++ f :: rest)
    ∧ trace w' = trace w ++ [SetIsUploading true] ++ map UploadRequest (done ++ [f])
                   ++ [ConsoleError "Error al subir imagen vía backend:";
                       ConsoleError "Error en la carga de imágenes:";
                       Alert "Error al subir imagen";
                       SetIsUploading false]
    ∧ (length (imageData (hook w))
         = length (existingImages (hook w)) + length (imageFiles (hook w)) →
       length (imageData (hook w'))
         < length (existingImages (hook w')) + length (imageFiles (hook w'))).
Proof.
  intros Hfit Himg Hans Hfail. eexists. split.
  - unfold handleImageUpload. run.
    destruct (Nat.ltb_spec 5 (length (done ++ f :: rest) + length previews))
      as [Hmany|_]; [lia|].
    rewrite (filter_all _ (done ++ f :: rest) Himg), Nat.eqb_refl. run.
    rewrite (uploadEach_fails backend 0 done f rest rs error) by done. run.
    reflexivity.
  - pose proof (answers_length backend 0 done rs Hans) as Hlen.
    simpl. rewrite !app_nil_r. repeat split; try done.
    + rewrite length_app. simpl. lia.
    + by rewrite <- !app_assoc.
    + intros Hcorr. rewrite !length_app, !length_map, Hcorr, Hlen. simpl. lia.
Qed.

(** ** useInstrumentForm: reset and close *)

Lemma forEach_revoke (previews : list string) (w : World) :
  forEach (λ url, c ← startsWith (Some url) "blob:";
                  when c (revokeObjectURL (Some url))) previews w
  = (Normal tt,
     {| hook := hook w; trace := trace w ++ map RevokeObjectURL (blobs previews) |}).
Proof.
  revert w. induction previews as [|u previews IH]; intros w; simpl.
  - unfold ret. rewrite app_nil_r. by destruct w.
  - run. destruct (String.prefix "blob:" u) eqn:Hu; run; rewrite IH; simpl.
    + by rewrite <- app_assoc.
    + done.
Qed.

Lemma resetForm_run (snap : State) (w : World) :
  resetForm snap w
  = (Normal tt,
     {| hook := cleared (hook w);
        trace := trace w ++ map RevokeObjectURL (blobs (imagePreviews snap)) |}).
Proof. unfold resetForm. run. rewrite forEach_revoke. by run. Qed.

Lemma handleClose_run (snap : State) (w : World) :
  handleClose snap w
  = (Normal tt,
     {| hook := cleared (hook w);
        trace := trace w ++ map RevokeObjectURL (blobs (imagePreviews snap)) ++ [OnClose] |}).
Proof. unfold handleClose. run. rewrite resetForm_run. run. by rewrite <- app_assoc. Qed.

(** ** useInstrumentForm: submit in create mode *)

(** C4. In create mode with a category selected, [handleSubmit] with no
    image metadata stops at a validation error and asks the service for
    nothing: the only calls it makes are [preventDefault] and one error
    toast, which reads "Debes agregar al menos una imagen." when there
    are no raw files either and "Las imágenes aún no se han subido
    correctamente." when there are; the state is left as it was. *)
Theorem handleSubmit_create_without_metadata
    (context : InstrumentContext) (instrumentService : InstrumentService)
    (st : State) (w : World) :
  truthy (get (formData st) "idCategory") = true →
  imageData st = [] →
  (imageFiles st = [] →
   handleSubmit false context instrumentService st w
   = (Normal tt,
      {| hook := hook w;
         trace := trace w ++ [PreventDefault;
                              ErrorToast "Debes agregar al menos una imagen."] |}))
  ∧ (imageFiles st ≠ [] →
     handleSubmit false context instrumentService st w
     = (Normal tt,
        {| hook := hook w;
           trace := trace w ++ [PreventDefault;
                                ErrorToast "Las imágenes aún no se han subido correctamente."] |})).
Proof.
  intros Hcat Hdata. unfold handleSubmit. run. rewrite Hcat, Hdata. run. split.
  - intros ->. run. by rewrite <- app_assoc.
  - intros Hfiles. destruct (imageFiles st) as [|f fs]; [done|]. run.
    by rewrite <- app_assoc.
Qed.

(** C8, as amended. In create mode with a category selected and image
    metadata present, when the create request fails, [handleSubmit] logs
    the error and shows one error toast; it does not call [onClose] and
    leaves every state cell as it was.  The toast reads "El instrumento ya
    existe. Intenta con otro nombre." for status 409, "Datos inválidos.
    Revisa el formulario." for 400 and "Error en el servidor. Inténtalo
    más tarde." for 500; for any other failure it is the error's own
    message when that is a non-empty string, and "Error al crear el
    instrumento." when the error has no message or an empty one. *)
Theorem handleSubmit_create_failure
    (context : InstrumentContext) (instrumentService : InstrumentService)
    (st : State) (w : World) (error : JsError) :
  truthy (get (formData st) "idCategory") = true →
  imageData st ≠ [] →
  service_createInstrument instrumentService
    (<["imageUrls" := VArr (map url (imageData st))]> (formData st)) = inl error →
  ∃ toast,
    handleSubmit false context instrumentService st w
    = (Normal tt,
       {| hook := hook w;
          trace := trace w ++
            [PreventDefault;
             CreateRequest (<["imageUrls" := VArr (map url (imageData st))]> (formData st));
             ConsoleError "Error completo:";
             ErrorToast toast] |})
    ∧ (status error = Some 409%Z →
       toast = "El instrumento ya existe. Intenta con otro nombre.")
    ∧ (status error = Some 400%Z → toast = "Datos inválidos. Revisa el formulario.")
    ∧ (status error = Some 500%Z → toast = "Error en el servidor. Inténtalo más tarde.")
    ∧ (status error ≠ Some 409%Z → status error ≠ Some 400%Z →
       status error ≠ Some 500%Z →
       (∀ m, message error = Some m → m ≠ "" → toast = m)
       ∧ (message error = None ∨ message error = Some "" →
          toast = "Error al crear el instrumento.")).
Proof.
  intros Hcat Hdata Hfail. unfold handleSubmit. run. rewrite Hcat.
  destruct (imageData st) as [|d ds] eqn:Ed; [done|]. run.
  simpl in Hfail. rewrite Hfail. run.
  repeat case_bool_decide; run; rewrite <- !app_assoc; simpl;
    eexists; (split; [reflexivity|]); repeat split; try congruence.
  - intros m Hm Hne. unfold message_or. rewrite Hm.
    by destruct (String.eqb_spec m "").
  - unfold message_or. by intros [->| ->].
Qed.

(** ** useInstrumentForm: field edits *)

(** C5, as amended. In create mode [handleInputChange] ends normally, makes
    no outside call and writes one key of [formData], the field's name,
    leaving every other key and cell alone.  The value written is the [checked] flag for
    a checkbox; otherwise [Number(value)] for the field [idCategory] (the
    integer [z] when [value] is the numeral of [z]); otherwise the boolean
    [value === "true"] for the field [available] ([true] for the text
    [true]); otherwise the raw [value]. *)
Theorem handleInputChange_create (target : Target.t) (w : World) :
  ∃ v,
    handleInputChange false target w
    = (Normal tt,
       {| hook := {| formData := <[Target.name target := v]> (formData (hook w));
                     imageFiles := imageFiles (hook w);
                     imagePreviews := imagePreviews (hook w);
                     existingImages := existingImages (hook w);
                     imageData := imageData (hook w);
                     initialLoad := initialLoad (hook w) |};
          trace := trace w |})
    ∧ (Target.type target = "checkbox" → v = VBool (Target.checked target))
    ∧ (Target.type target ≠ "checkbox" → Target.name target = "idCategory" →
       v = VNum (Number (Target.value target))
       ∧ ∀ z, Target.value target = numeral z → v = VNum (num_of_Z z))
    ∧ (Target.type target ≠ "checkbox" → Target.name target = "available" →
       v = VBool (String.eqb (Target.value target) "true")
       ∧ (Target.value target = "true" → v = VBool true))
    ∧ (Target.type target ≠ "checkbox" → Target.name target ≠ "idCategory" →
       Target.name target ≠ "available" → v = VStr (Target.value target)).
Proof.
  destruct target as [name value type checked]. unfold handleInputChange. run.
  eexists. split; [reflexivity|].
  destruct (String.eqb_spec type "checkbox") as [->|Hty].
  { repeat split; done. }
  destruct (String.eqb_spec name "idCategory") as [->|Hcat].
  { repeat split; try done. intros z ->. by rewrite Number_numeral. }
  destruct (String.eqb_spec name "available") as [->|Hav].
  { repeat split; try done. by intros ->. }
  repeat split; done.
Qed.

(** The written key reads back as the coerced value, the others as before. *)
Lemma get_insert_eq (o : Obj) (k : string) (v : JsVal) : get (<[k := v]> o) k = v.
Proof. unfold get. by rewrite lookup_insert_eq. Qed.

Lemma get_insert_ne (o : Obj) (k k' : string) (v : JsVal) :
  k ≠ k' → get (<[k := v]> o) k' = get o k'.
Proof. intros H. unfold get. by rewrite lookup_insert_ne. Qed.

(** In edit mode a field edit changes at most [formData.idCategory]. *)
Lemma handleInputChange_edit (target : Target.t) (w : World) :
  ∃ fd,
    handleInputChange true target w
    = (Normal tt,
       {| hook := {| formData := fd;
                     imageFiles := imageFiles (hook w);
                     imagePreviews := imagePreviews (hook w);
                     existingImages := existingImages (hook w);
                     imageData := imageData (hook w);
                     initialLoad := initialLoad (hook w) |};
          trace := trace w |})
    ∧ (∀ k, k ≠ "idCategory" → fd !! k = formData (hook w) !! k)
    ∧ (Target.name target ≠ "idCategory" → fd = formData (hook w)).
Proof.
  destruct target as [name value type checked]. unfold handleInputChange. run.
  destruct (String.eqb_spec name "idCategory") as [->|Hne]; run.
  - eexists. split; [reflexivity|]. split; [|done].
    intros k Hk. by rewrite lookup_insert_ne.
  - exists (formData (hook w)). by destruct w as [[] ?].
Qed.

(** A field edit touches neither the images nor the trace. *)
Lemma handleInputChange_images (isEditMode : bool) (target : Target.t) (w : World) :
  imagePreviews (hook (snd (handleInputChange isEditMode target w)))
  = imagePreviews (hook w)
  ∧ existingImages (hook (snd (handleInputChange isEditMode target w)))
    = existingImages (hook w)
  ∧ trace (snd (handleInputChange isEditMode target w)) = trace w.
Proof.
  destruct target as [name value type checked]. unfold handleInputChange.
  destruct isEditMode; run; [|done].
  destruct (String.eqb name "idCategory"); run; done.
Qed.

Lemma edits_cons (isEditMode : bool) (t : Target.t) (targets : list Target.t) (w : World) :
  edits isEditMode (t :: targets) w
  = edits isEditMode targets (snd (handleInputChange isEditMode t w)).
Proof. reflexivity. Qed.

Lemma edits_edit (targets : list Target.t) (w : World) :
  trace (edits true targets w) = trace w
  ∧ imageFiles (hook (edits true targets w)) = imageFiles (hook w)
  ∧ imagePreviews (hook (edits true targets w)) = imagePreviews (hook w)
  ∧ existingImages (hook (edits true targets w)) = existingImages (hook w)
  ∧ imageData (hook (edits true targets w)) = imageData (hook w)
  ∧ ∀ k, k ≠ "idCategory" →
      formData (hook (edits true targets w)) !! k = formData (hook w) !! k.
Proof.
  revert w. induction targets as [|t targets IH]; intros w; [done|].
  rewrite edits_cons.
  destruct (handleInputChange_edit t w) as (fd & -> & Hfd & _). simpl.
  destruct (IH {| hook := {| formData := fd; imageFiles := imageFiles (hook w);
                            imagePreviews := imagePreviews (hook w);
                            existingImages := existingImages (hook w);
                            imageData := imageData (hook w);
                            initialLoad := initialLoad (hook w) |};
                  trace := trace w |}) as (-> & -> & -> & -> & -> & Hk).
  repeat split; try done. intros k Hne. rewrite Hk by done. by apply Hfd.
Qed.

(** ** useInstrumentForm: submit in edit mode *)

Lemma no_request_revoke (urls : list string) :
  List.filter isRequest (map RevokeObjectURL urls) = [].
Proof. induction urls as [|u urls IH]; simpl; done. Qed.

(** C3, as amended. In edit mode, after any sequence of field edits, a
    submit with a category selected makes exactly one request: an update
    request whose payload has the two keys [id] and [idCategory] and
    nothing else, [id] being the [id] the form had before the edits and
    [idCategory] the category currently in the form. *)
Theorem handleSubmit_edit_payload
    (context : InstrumentContext) (instrumentService : InstrumentService)
    (targets : list Target.t) (w : World) :
  truthy (get (formData (hook (edits true targets w))) "idCategory") = true →
  ∃ payload rest w',
    fire (handleSubmit true context instrumentService) (edits true targets w)
    = (Normal tt, w')
    ∧ trace w' = trace w ++ [PreventDefault; UpdateRequest payload] ++ rest
    ∧ List.filter isRequest rest = []
    ∧ payload !! "id" = Some (get (formData (hook w)) "id")
    ∧ payload !! "idCategory"
      = Some (get (formData (hook (edits true targets w))) "idCategory")
    ∧ dom payload = ({["id"]} ∪ {["idCategory"]} : gset string).
Proof.
  intros Hcat.
  destruct (edits_edit targets w) as (Htr & _ & _ & _ & _ & Hfd).
  unfold fire, handleSubmit. run. rewrite Hcat, Htr. run.
  eexists.
  destruct (service_updateInstrument instrumentService _) as [error|updated]; run.
  - repeat case_bool_decide; run; rewrite <- !app_assoc; simpl;
      eexists; eexists; (split; [reflexivity|]); simpl;
      (split; [reflexivity|]); (split; [reflexivity|]);
      (split; [|split]);
      try (rewrite lookup_insert_eq; unfold get; by rewrite Hfd);
      try (rewrite lookup_insert_ne by done; by rewrite lookup_insert_eq);
      try (rewrite !dom_insert_L; set_solver).
  - destruct (updateInstrument context); run; rewrite handleClose_run; run;
      rewrite <- !app_assoc; simpl;
      eexists; eexists; (split; [reflexivity|]); simpl;
      (split; [reflexivity|]); simpl; rewrite ?List.filter_app, ?no_request_revoke;
      (split; [reflexivity|]);
      (split; [|split]);
      try (rewrite lookup_insert_eq; unfold get; by rewrite Hfd);
      try (rewrite lookup_insert_ne by done; by rewrite lookup_insert_eq);
      try (rewrite !dom_insert_L; set_solver).
Qed.

(** ** useInstrumentForm: loading the record in edit mode *)




Lemma hydrateEffect_run (record : Obj) (st : State) (w : World) :
  initialLoad st = true →
  ∃ r w',
    hydrateEffect (Some record) st w = (r, w')
    ∧ formData (hook w') = hydratedFormData record
    ∧ imageFiles (hook w') = imageFiles (hook w)
    ∧ trace w' = trace w
    ∧ (record !! "imageUrls" = None ∨ record !! "imageUrls" = Some (VArr []) →
         r = Normal tt
         ∧ initialLoad (hook w') = false
         ∧ existingImages (hook w') = existingImages (hook w)
         ∧ imagePreviews (hook w') = imagePreviews (hook w)
         ∧ imageData (hook w') = imageData (hook w))
    ∧ (∀ u urls, record !! "imageUrls" = Some (VArr (u :: urls)) →
         r = Normal tt
         ∧ initialLoad (hook w') = false
         ∧ existingImages (hook w') = u :: urls
         ∧ imagePreviews (hook w') = u :: urls
         ∧ imageData (hook w')
           = map (λ url, {| url := url; publicId := None; width := None;
                            height := None; format := None |}) (u :: urls)).
Proof.
  intros Hload. unfold hydrateEffect. simpl. rewrite Hload. run.
  unfold get at 1.
  destruct (record !! "imageUrls") as [[| |b|n|s|[|u urls]]|] eqn:Eurls; run;
    try (destruct (Nat.ltb_spec 0 (String.length s)); run);
    eexists; eexists; (split; [reflexivity|]); simpl;
    (split; [reflexivity|]); (split; [reflexivity|]); (split; [reflexivity|]);
    (split; [intros [?|?]|intros ???]); simplify_eq; done.
Qed.


(** ** useInstrumentForm: removing an image *)

Lemma js_filter_value (v : string) (previews : list string) :
  js_filter (λ url _, bool_decide (Some url ≠ Some v)) previews = without v previews.
Proof.
  unfold js_filter, without. rewrite filter_from_value.
  induction previews as [|u previews IH]; simpl; [done|]. rewrite IH.
  destruct (decide (u = v)) as [->|Hne].
  - rewrite !bool_decide_eq_false_2; [done|auto|auto].
  - rewrite !bool_decide_eq_true_2; [done|auto|congruence].
Qed.

Lemma without_length (v : string) (previews : list string) :
  length (without v previews) + occurrences v previews = length previews.
Proof.
  unfold without, occurrences.
  induction previews as [|u previews IH]; simpl; [done|].
  destruct (decide (u = v)) as [->|Hne].
  - rewrite (bool_decide_eq_false_2 (v ≠ v)), (bool_decide_eq_true_2 (v = v)) by auto.
    simpl. lia.
  - rewrite (bool_decide_eq_true_2 (u ≠ v)), (bool_decide_eq_false_2 (u = v)) by auto.
    simpl. lia.
Qed.

Lemma without_absent (v : string) (previews : list string) :
  occurrences v previews = 0 → without v previews = previews.
Proof.
  unfold without, occurrences.
  induction previews as [|u previews IH]; simpl; [done|].
  destruct (decide (u = v)) as [->|Hne].
  - rewrite (bool_decide_eq_true_2 (v = v)) by auto. simpl. lia.
  - rewrite (bool_decide_eq_true_2 (u ≠ v)), (bool_decide_eq_false_2 (u = v)) by auto.
    intros H. f_equal. by apply IH.
Qed.

Lemma occurrences_elem (v : string) (previews : list string) :
  v ∈ previews → 0 < occurrences v previews.
Proof.
  unfold occurrences. induction 1 as [v l|v u l Hin IH]; simpl.
  - rewrite bool_decide_eq_true_2 by auto. simpl. lia.
  - destruct (bool_decide (u = v)); simpl; lia.
Qed.

Lemma without_once (v : string) (previews : list string) (index : nat) :
  previews !! index = Some v → occurrences v previews = 1 →
  without v previews = delete index previews.
Proof.
  revert index. induction previews as [|u previews IH]; intros index Hv Hocc; [done|].
  destruct index as [|index]; simpl in Hv.
  - injection Hv as ->. unfold without, occurrences in *. simpl in *.
    rewrite (bool_decide_eq_false_2 (v ≠ v)) by auto.
    rewrite (bool_decide_eq_true_2 (v = v)) in Hocc by auto. simpl in Hocc.
    apply without_absent. unfold occurrences. lia.
  - pose proof (occurrences_elem v previews (list_elem_of_lookup_2 _ _ _ Hv)) as Hpos.
    unfold without, occurrences in *. simpl in *.
    destruct (decide (u = v)) as [->|Hne].
    + rewrite (bool_decide_eq_true_2 (v = v)) in Hocc by auto. simpl in Hocc. lia.
    + rewrite (bool_decide_eq_false_2 (u = v)) in Hocc by auto.
      rewrite (bool_decide_eq_true_2 (u ≠ v)) by auto. f_equal. by apply IH.
Qed.

(** In edit mode [removeImage] does nothing. *)
Lemma removeImage_edit_mode (snap : State) (index : nat) (w : World) :
  removeImage true snap index w = (Normal tt, w).
Proof. reflexivity. Qed.

(** [removeImage] in create mode, for any index. *)
Lemma removeImage_run (index : nat) (w : World) :
  fire (λ snap, removeImage false snap index) w
  = (Normal tt,
     if Nat.ltb index (length (existingImages (hook w))) then
       {| hook := {| formData := formData (hook w);
                     imageFiles := imageFiles (hook w);
                     imagePreviews :=
                       match existingImages (hook w) !! index with
                       | Some v => without v (imagePreviews (hook w))
                       | None => imagePreviews (hook w)
                       end;
                     existingImages := delete index (existingImages (hook w));
                     imageData := delete index (imageData (hook w));
                     initialLoad := initialLoad (hook w) |};
          trace := trace w |}
     else
       {| hook := {| formData := formData (hook w);
                     imageFiles := delete (index - length (existingImages (hook w)))
                                          (imageFiles (hook w));
                     imagePreviews := delete index (imagePreviews (hook w));
                     existingImages := existingImages (hook w);
                     imageData := delete index (imageData (hook w));
                     initialLoad := initialLoad (hook w) |};
          trace := trace w ++
                   match imagePreviews (hook w) !! index with
                   | Some u => if String.prefix "blob:" u then [RevokeObjectURL u] else []
                   | None => []
                   end |}).
Proof.
  unfold fire, removeImage. run.
  destruct (Nat.ltb_spec index (length (existingImages (hook w)))) as [Hex|Hnew].
  - destruct (lookup_lt_is_Some_2 _ _ Hex) as [v Hv]. rewrite Hv. run.
    by rewrite !js_filter_index, js_filter_value.
  - destruct (imagePreviews (hook w) !! index) as [u|] eqn:Hu; simpl.
    + destruct (String.eqb_spec u "") as [->|Hne]; run.
      * rewrite !js_filter_index. simpl. by rewrite app_nil_r.
      * destruct (String.prefix "blob:" u) eqn:Hblob; run;
          rewrite !js_filter_index; by rewrite ?app_nil_r.
    + run. rewrite !js_filter_index. by rewrite app_nil_r.
Qed.

(** C1, as amended. In create mode, for every index in range of
    [imagePreviews] and [imageData], [removeImage] ends normally without
    reaching its error handler and deletes the entry at the index from
    [imageData], which gets one entry shorter.  At or beyond the
    existing-images count it also deletes the entry at the index from
    [imagePreviews] (one entry shorter) and the entry at the index minus
    that count from [imageFiles], and releases the preview at the index
    when it starts with [blob:].  Within the existing-images prefix it
    deletes the entry from [existingImages], drops from [imagePreviews]
    the entries equal to that URL and releases nothing; when the URL
    occurs once among the previews this is one entry, the one at the index
    if the preview there is that URL. *)
Theorem removeImage_create_mode (index : nat) (w : World) :
  index < length (imagePreviews (hook w)) →
  index < length (imageData (hook w)) →
  ∃ w',
    fire (λ snap, removeImage false snap index) w = (Normal tt, w')
    ∧ formData (hook w') = formData (hook w)
    ∧ imageData (hook w') = delete index (imageData (hook w))
    ∧ length (imageData (hook w')) = length (imageData (hook w)) - 1
    ∧ (length (existingImages (hook w)) ≤ index →
       imagePreviews (hook w') = delete index (imagePreviews (hook w))
       ∧ length (imagePreviews (hook w')) = length (imagePreviews (hook w)) - 1
       ∧ imageFiles (hook w')
         = delete (index - length (existingImages (hook w))) (imageFiles (hook w))
       ∧ existingImages (hook w') = existingImages (hook w)
       ∧ ∀ u, imagePreviews (hook w) !! index = Some u →
           trace w' = trace w ++ (if String.prefix "blob:" u
                                  then [RevokeObjectURL u] else []))
    ∧ (index < length (existingImages (hook w)) →
       ∃ imageUrl,
         existingImages (hook w) !! index = Some imageUrl
         ∧ existingImages (hook w') = delete index (existingImages (hook w))
         ∧ imagePreviews (hook w') = without imageUrl (imagePreviews (hook w))
         ∧ imageFiles (hook w') = imageFiles (hook w)
         ∧ trace w' = trace w
         ∧ (occurrences imageUrl (imagePreviews (hook w)) = 1 →
            length (imagePreviews (hook w')) = length (imagePreviews (hook w)) - 1
            ∧ (imagePreviews (hook w) !! index = Some imageUrl →
               imagePreviews (hook w') = delete index (imagePreviews (hook w))))).
Proof.
  intros Hprev Hdata. unfold fire, removeImage. run.
  destruct (Nat.ltb_spec index (length (existingImages (hook w)))) as [Hex|Hnew].
  - destruct (lookup_lt_is_Some_2 _ _ Hex) as [imageUrl Hurl]. rewrite Hurl. run.
    rewrite !js_filter_index, js_filter_value.
    eexists. split; [reflexivity|]. simpl.
    repeat split; try done; try lia.
    + by apply length_delete_lt.
    + exists imageUrl. repeat split; try done.
      * pose proof (without_length imageUrl (imagePreviews (hook w))). lia.
      * intros Hat. by apply without_once.
  - destruct (lookup_lt_is_Some_2 _ _ Hprev) as [u Hu]. rewrite Hu. simpl.
    destruct (String.eqb_spec u "") as [->|Hne]; run.
    + rewrite !js_filter_index. eexists. split; [reflexivity|]. simpl.
      repeat split; try done; try lia; try by apply length_delete_lt.
      intros u' [= <-]. simpl. by rewrite app_nil_r.
    + destruct (String.prefix "blob:" u) eqn:Hblob; run;
        rewrite !js_filter_index; (eexists; split; [reflexivity|]); simpl;
        repeat split; try done; try lia; try (by apply length_delete_lt);
        intros u' [= <-]; rewrite Hblob; by rewrite ?app_nil_r.
Qed.

(** ** The preview handles over an open/close cycle *)

Lemma revoked_app (t1 t2 : list Effect) : revoked (t1 ++ t2) = revoked t1 ++ revoked t2.
Proof.
  induction t1 as [|e t1 IH]; simpl; [done|]. destruct e; simpl; by rewrite ?IH.
Qed.

Lemma revoked_map (urls : list string) : revoked (map RevokeObjectURL urls) = urls.
Proof. induction urls as [|u urls IH]; simpl; by rewrite ?IH. Qed.

Lemma revoked_requests (files : list File.t) : revoked (map UploadRequest files) = [].
Proof. induction files as [|f files IH]; simpl; done. Qed.

Lemma elem_of_blobs (u : string) (previews : list string) :
  u ∈ blobs previews ↔ u ∈ previews ∧ String.prefix "blob:" u = true.
Proof. unfold blobs. rewrite !list_elem_of_In. apply List.filter_In. Qed.

Lemma blobs_sublist (previews : list string) : blobs previews `sublist_of` previews.
Proof.
  unfold blobs. induction previews as [|u previews IH]; simpl; [done|].
  destruct (String.prefix "blob:" u); by constructor.
Qed.

Lemma blobs_app (l1 l2 : list string) : blobs (l1 ++ l2) = blobs l1 ++ blobs l2.
Proof. apply List.filter_app. Qed.

Lemma without_sublist (v : string) (previews : list string) :
  without v previews `sublist_of` previews.
Proof.
  unfold without. induction previews as [|u previews IH]; simpl; [done|].
  destruct (bool_decide (u ≠ v)); by constructor.
Qed.

Lemma blobs_without (v : string) (previews : list string) :
  String.prefix "blob:" v = false → blobs (without v previews) = blobs previews.
Proof.
  intros Hv. unfold blobs, without.
  induction previews as [|u previews IH]; simpl; [done|].
  destruct (decide (u = v)) as [->|Hne].
  - rewrite (bool_decide_eq_false_2 (v ≠ v)) by auto. by rewrite Hv.
  - rewrite (bool_decide_eq_true_2 (u ≠ v)) by auto. simpl. by rewrite IH.
Qed.

Lemma blobs_delete (index : nat) (u : string) (previews : list string) :
  previews !! index = Some u →
  blobs previews
  ≡ₚ (if String.prefix "blob:" u then [u] else []) ++ blobs (delete index previews).
Proof.
  intros Hu. rewrite delete_take_drop.
  rewrite <- (take_drop_middle previews index u Hu) at 1.
  rewrite !blobs_app. simpl. unfold blobs at 2. simpl. fold (blobs (drop (S index) previews)).
  destruct (String.prefix "blob:" u); simpl; [|done].
  by rewrite <- Permutation_middle.
Qed.

Lemma uploadEach_run backend (i : nat) (files : list File.t) (w : World) :
  ∃ r urls descs t,
    uploadEach backend true i files w
    = (r, {| hook := appended (hook w) [] urls descs; trace := trace w ++ t |})
    ∧ revoked t = []
    ∧ (r = Normal tt ∨ ∃ e, r = Threw e).
Proof.
  revert i w. induction files as [|f files IH]; intros i w; simpl.
  - exists (Normal tt), [], [], []. rewrite appended_nil, app_nil_r.
    destruct w. auto.
  - unfold cloudinaryService.uploadImageViaBackend. run.
    destruct (backend i f) as [e|r]; run.
    + exists (Threw e), [], [],
        [UploadRequest f; ConsoleError "Error al subir imagen vía backend:"].
      rewrite appended_nil, <- app_assoc. simpl. eauto.
    + match goal with |- context [uploadEach _ _ _ _ ?w1] =>
        destruct (IH (S i) w1) as (r' & urls & descs & t & -> & Ht & Hr) end.
      exists r', (secureUrl r :: urls), (descriptor r :: descs), (UploadRequest f :: t).
      simpl. split; [|by split].
      destruct r' as [[]| |e]; simpl; f_equal; f_equal;
        try (unfold appended; simpl; by rewrite !app_nil_r, <- !app_assoc);
        by rewrite <- app_assoc.
Qed.

Lemma step_select (isEditMode : bool) backend (files : list File.t) (w : World) :
  ∃ urls,
    imagePreviews (hook (step isEditMode (SelectFiles backend files) w))
    = imagePreviews (hook w) ++ urls
    ∧ existingImages (hook (step isEditMode (SelectFiles backend files) w))
      = existingImages (hook w)
    ∧ revoked (trace (step isEditMode (SelectFiles backend files) w))
      = revoked (trace w).
Proof.
  unfold step, fire, handleImageUpload. destruct isEditMode; run.
  { exists []. by rewrite app_nil_r. }
  destruct (Nat.ltb 5 _); run.
  { exists []. by rewrite app_nil_r, revoked_app, app_nil_r. }
  destruct (negb _); run.
  { exists []. by rewrite app_nil_r, revoked_app, app_nil_r. }
  match goal with |- context [uploadEach _ _ _ ?fs ?w1] =>
    destruct (uploadEach_run backend 0 fs w1) as (r & urls & descs & t & -> & Ht & Hr) end.
  exists urls.
  destruct Hr as [->|[e ->]]; run; rewrite !revoked_app, Ht; simpl;
    by rewrite !app_nil_r.
Qed.

Lemma step_invariant (isEditMode : bool) (e : Event) (w : World) :
  (∀ u, u ∈ existingImages (hook w) → String.prefix "blob:" u = false) →
  imagePreviews (hook (step isEditMode e w))
    `sublist_of` imagePreviews (hook w) ++ appendedBy isEditMode e w
  ∧ (∀ u, u ∈ existingImages (hook (step isEditMode e w)) →
       String.prefix "blob:" u = false)
  ∧ revoked (trace (step isEditMode e w))
      ++ blobs (imagePreviews (hook (step isEditMode e w)))
    ≡ₚ revoked (trace w) ++ blobs (imagePreviews (hook w) ++ appendedBy isEditMode e w).
Proof.
  intros Hex. destruct e as [backend files|index|target].
  - destruct (step_select isEditMode backend files w) as (urls & Hp & He & Hr).
    unfold appendedBy. rewrite Hp, He, Hr, drop_app_length. done.
  - unfold appendedBy. rewrite app_nil_r. destruct isEditMode.
    { unfold step, fire. by rewrite removeImage_edit_mode. }
    unfold step. rewrite removeImage_run.
    destruct (Nat.ltb_spec index (length (existingImages (hook w)))) as [Hlt|Hge]; simpl.
    + destruct (lookup_lt_is_Some_2 _ _ Hlt) as [v Hv]. rewrite Hv.
      assert (Hblob : String.prefix "blob:" v = false).
      { apply Hex. by eapply list_elem_of_lookup_2. }
      split; [apply without_sublist|]. split.
      * intros u Hu. apply Hex. eapply elem_of_sublist; [done|apply sublist_delete].
      * by rewrite blobs_without.
    + split; [apply sublist_delete|]. split; [done|].
      rewrite revoked_app.
      destruct (imagePreviews (hook w) !! index) as [u|] eqn:Hu.
      * rewrite (blobs_delete index u _ Hu), <- app_assoc.
        destruct (String.prefix "blob:" u); done.
      * simpl. rewrite app_nil_r, delete_ge; [done|]. by apply lookup_ge_None.
  - unfold appendedBy, step. rewrite app_nil_r.
    destruct (handleInputChange_images isEditMode target w) as (-> & -> & ->). done.
Qed.

Lemma closing_cons (isEditMode : bool) (e : Event) (events : list Event) (w : World) :
  closing isEditMode (e :: events) w = closing isEditMode events (step isEditMode e w).
Proof. reflexivity. Qed.

Lemma closing_previews (isEditMode : bool) (events : list Event) (w : World) :
  imagePreviews (hook (closing isEditMode events w)) = [].
Proof. unfold closing, fire. by rewrite handleClose_run. Qed.

(** The handles released by the end of the cycle are those released
    before it plus the [blob:] previews held during it. *)
Lemma closing_revoked (isEditMode : bool) (events : list Event) (w : World) :
  (∀ u, u ∈ existingImages (hook w) → String.prefix "blob:" u = false) →
  revoked (trace (closing isEditMode events w))
  ≡ₚ revoked (trace w) ++ blobs (held isEditMode events w).
Proof.
  revert w. induction events as [|e events IH]; intros w Hex.
  - unfold closing, fire, held. simpl. rewrite handleClose_run. simpl.
    by rewrite !revoked_app, revoked_map, !app_nil_r.
  - destruct (step_invariant isEditMode e w Hex) as (_ & Hex' & Hperm).
    rewrite closing_cons, (IH _ Hex'). unfold held. simpl.
    rewrite !blobs_app, !app_assoc.
    apply Permutation_app_tail. rewrite Hperm, blobs_app, !app_assoc. done.
Qed.

(** C2, as amended. Take an open form in which no handle has been
    released yet and no existing image URL starts with [blob:], let any
    sequence of file selections, image removals and field edits happen,
    and close it with [handleClose].  Then the URLs released by the end
    are exactly the held previews that start with [blob:], each released
    as many times as it was held (by [removeImage] when its image is
    removed, by the reset otherwise): exactly once when the [blob:]
    previews held along the way are pairwise distinct.  No other URL is
    released, and no preview is left in the form. *)
Theorem lifecycle_releases_once (isEditMode : bool) (events : list Event) (w : World) :
  revoked (trace w) = [] →
  (∀ u, u ∈ existingImages (hook w) → String.prefix "blob:" u = false) →
  revoked (trace (closing isEditMode events w)) ≡ₚ blobs (held isEditMode events w)
  ∧ (NoDup (blobs (held isEditMode events w)) →
     NoDup (revoked (trace (closing isEditMode events w))))
  ∧ (∀ u, u ∈ revoked (trace (closing isEditMode events w))
          ↔ u ∈ held isEditMode events w ∧ String.prefix "blob:" u = true)
  ∧ (∀ u, String.prefix "blob:" u = false →
          u ∉ revoked (trace (closing isEditMode events w)))
  ∧ imagePreviews (hook (closing isEditMode events w)) = [].
Proof.
  intros Hnone Hex.
  pose proof (closing_revoked isEditMode events w Hex) as Hperm.
  rewrite Hnone in Hperm. simpl in Hperm.
  split; [exact Hperm|]. split; [|split; [|split]].
  - intros Hnd. by rewrite Hperm.
  - intros u. rewrite Hperm. apply elem_of_blobs.
  - intros u Hu. rewrite Hperm, elem_of_blobs. intros [_ Hb]. congruence.
  - apply closing_previews.
Qed.

(** ** useInstrumentForm: what reset, edits and submit do in general *)

(** X1. [resetForm] always ends normally and leaves the empty form: the
    default [formData] and four empty image cells, with [initialLoad] as
    it was.  The only calls it makes release the captured previews that
    start with [blob:], in order; a second reset right after it releases
    nothing and changes nothing. *)
Theorem resetForm_clears (snap : State) (w : World) :
  ∃ w',
    resetForm snap w = (Normal tt, w')
    ∧ formData (hook w') = emptyFormData
    ∧ imageFiles (hook w') = []
    ∧ imagePreviews (hook w') = []
    ∧ existingImages (hook w') = []
    ∧ imageData (hook w') = []
    ∧ initialLoad (hook w') = initialLoad (hook w)
    ∧ trace w' = trace w ++ map RevokeObjectURL (blobs (imagePreviews snap))
    ∧ fire resetForm w' = (Normal tt, w').
Proof.
  eexists. split; [apply resetForm_run|]. simpl. repeat split; try done.
Qed.

(** X2. In edit mode a change of any field but [idCategory] is ignored:
    the handler ends normally and neither the state nor the trace
    changes.  A change of [idCategory] writes that one key (the [checked]
    flag for a checkbox, [Number(value)] otherwise) and nothing else. *)
Theorem handleInputChange_edit_mode (target : Target.t) (w : World) :
  (Target.name target ≠ "idCategory" → handleInputChange true target w = (Normal tt, w))
  ∧ (Target.name target = "idCategory" →
     handleInputChange true target w
     = (Normal tt,
        {| hook := {| formData :=
                        <["idCategory" :=
                            if String.eqb (Target.type target) "checkbox"
                            then VBool (Target.checked target)
                            else VNum (Number (Target.value target))]>
                          (formData (hook w));
                      imageFiles := imageFiles (hook w);
                      imagePreviews := imagePreviews (hook w);
                      existingImages := existingImages (hook w);
                      imageData := imageData (hook w);
                      initialLoad := initialLoad (hook w) |};
           trace := trace w |})).
Proof.
  destruct target as [name value type checked]. unfold handleInputChange. simpl.
  split.
  - intros Hne. destruct (String.eqb_spec name "idCategory") as [E|_]; [done|].
    run. by destruct w.
  - intros ->. run. by destruct (String.eqb type "checkbox").
Qed.

(** In create mode the value a field edit writes depends on the event only. *)
Lemma handleInputChange_create_run (target : Target.t) :
  ∃ v, ∀ w,
    handleInputChange false target w
    = (Normal tt,
       {| hook := {| formData := <[Target.name target := v]> (formData (hook w));
                     imageFiles := imageFiles (hook w);
                     imagePreviews := imagePreviews (hook w);
                     existingImages := existingImages (hook w);
                     imageData := imageData (hook w);
                     initialLoad := initialLoad (hook w) |};
          trace := trace w |}).
Proof.
  destruct target as [name value type checked]. unfold handleInputChange. run.
  eexists. intros w. reflexivity.
Qed.

(** X3. In create mode, edits of two different fields can be made in
    either order with the same result, and of two edits of the same field
    only the later one counts. *)
Theorem edits_compose (t1 t2 : Target.t) (w : World) :
  (Target.name t1 ≠ Target.name t2 → edits false [t1; t2] w = edits false [t2; t1] w)
  ∧ (Target.name t1 = Target.name t2 → edits false [t1; t2] w = edits false [t2] w).
Proof.
  destruct (handleInputChange_create_run t1) as [v1 H1].
  destruct (handleInputChange_create_run t2) as [v2 H2].
  unfold edits. cbn [foldl]. split; intros Hn.
  - repeat (rewrite ?H1, ?H2; simpl).
    by rewrite (insert_insert_ne _ _ _ _ _ Hn).
  - repeat (rewrite ?H1, ?H2; simpl). rewrite Hn.
    by rewrite insert_insert_eq.
Qed.

(** X4. In either mode, a submit with no category selected stops at the
    validation toast: nothing is requested, the form is not closed and the
    state is left as it was. *)
Theorem handleSubmit_without_category
    (isEditMode : bool) (context : InstrumentContext)
    (instrumentService : InstrumentService) (st : State) (w : World) :
  truthy (get (formData st) "idCategory") = false →
  handleSubmit isEditMode context instrumentService st w
  = (Normal tt,
     {| hook := hook w;
        trace := trace w ++ [PreventDefault;
                             ErrorToast "Debes seleccionar una categoría."] |}).
Proof.
  intros Hcat. unfold handleSubmit. run. rewrite Hcat. run.
  by rewrite <- app_assoc.
Qed.

(** X5. In create mode with a category selected and image metadata
    present, when the create request succeeds the submit sends the form
    with [imageUrls] replaced by the URLs of the metadata, in order, hands
    the created record to [addInstrument] when the context has one, shows
    the success toast, then resets the form (releasing the captured
    [blob:] previews) and calls [onClose] last. *)
Theorem handleSubmit_create_success
    (context : InstrumentContext) (instrumentService : InstrumentService)
    (st : State) (w : World) (created : Obj) :
  truthy (get (formData st) "idCategory") = true →
  imageData st ≠ [] →
  service_createInstrument instrumentService
    (<["imageUrls" := VArr (map url (imageData st))]> (formData st)) = inr created →
  handleSubmit false context instrumentService st w
  = (Normal tt,
     {| hook := cleared (hook w);
        trace := trace w ++
          [PreventDefault;
           CreateRequest (<["imageUrls" := VArr (map url (imageData st))]> (formData st))]
          ++ (if addInstrument context then [ContextAddInstrument created] else [])
          ++ [SuccessToast "Instrumento agregado con éxito."]
          ++ map RevokeObjectURL (blobs (imagePreviews st))
          ++ [OnClose] |}).
Proof.
  intros Hcat Hdata Hok. unfold handleSubmit. run. rewrite Hcat.
  destruct (imageData st) as [|d ds] eqn:Ed; [done|]. run.
  simpl in Hok. rewrite Hok. run.
  destruct (addInstrument context); run; rewrite handleClose_run; run;
    by rewrite <- !app_assoc.
Qed.

(** X6. In edit mode with a category selected, when the update request
    succeeds the submit hands the updated record to [updateInstrument]
    when the context has one, shows the success toast, then resets the
    form and calls [onClose] last. *)
Theorem handleSubmit_edit_success
    (context : InstrumentContext) (instrumentService : InstrumentService)
    (st : State) (w : World) (updated : Obj) :
  truthy (get (formData st) "idCategory") = true →
  service_updateInstrument instrumentService
    (<["id" := get (formData st) "id"]>
       (<["idCategory" := get (formData st) "idCategory"]> ∅)) = inr updated →
  handleSubmit true context instrumentService st w
  = (Normal tt,
     {| hook := cleared (hook w);
        trace := trace w ++
          [PreventDefault;
           UpdateRequest (<["id" := get (formData st) "id"]>
                            (<["idCategory" := get (formData st) "idCategory"]> ∅))]
          ++ (if updateInstrument context then [ContextUpdateInstrument updated] else [])
          ++ [SuccessToast "Categoría del instrumento actualizada con éxito."]
          ++ map RevokeObjectURL (blobs (imagePreviews st))
          ++ [OnClose] |}).
Proof.
  intros Hcat Hok. unfold handleSubmit. run. rewrite Hcat. run. rewrite Hok. run.
  destruct (updateInstrument context); run; rewrite handleClose_run; run;
    by rewrite <- !app_assoc.
Qed.

(** X7. In edit mode with a category selected, when the update request
    fails the submit logs the error and shows one error toast; the form is
    not closed and the state is left as it was.  The toast is the fixed
    text for status 409, 400 or 500; otherwise the error's own message
    when that is a non-empty string, and "Error al actualizar la
    categoría el instrumento." when it is missing or empty. *)
Theorem handleSubmit_edit_failure
    (context : InstrumentContext) (instrumentService : InstrumentService)
    (st : State) (w : World) (error : JsError) :
  truthy (get (formData st) "idCategory") = true →
  service_updateInstrument instrumentService
    (<["id" := get (formData st) "id"]>
       (<["idCategory" := get (formData st) "idCategory"]> ∅)) = inl error →
  ∃ toast,
    handleSubmit true context instrumentService st w
    = (Normal tt,
       {| hook := hook w;
          trace := trace w ++
            [PreventDefault;
             UpdateRequest (<["id" := get (formData st) "id"]>
                              (<["idCategory" := get (formData st) "idCategory"]> ∅));
             ConsoleError "Error completo:";
             ErrorToast toast] |})
    ∧ (status error = Some 409%Z →
       toast = "El instrumento ya existe. Intenta con otro nombre.")
    ∧ (status error = Some 400%Z → toast = "Datos inválidos. Revisa el formulario.")
    ∧ (status error = Some 500%Z → toast = "Error en el servidor. Inténtalo más tarde.")
    ∧ (status error ≠ Some 409%Z → status error ≠ Some 400%Z →
       status error ≠ Some 500%Z →
       (∀ m, message error = Some m → m ≠ "" → toast = m)
       ∧ (message error = None ∨ message error = Some "" →
          toast = "Error al actualizar la categoría el instrumento.")).
Proof.
  intros Hcat Hfail. unfold handleSubmit. run. rewrite Hcat. run. rewrite Hfail. run.
  repeat case_bool_decide; run; rewrite <- !app_assoc; simpl;
    eexists; (split; [reflexivity|]); repeat split; try congruence.
  - intros m Hm Hne. unfold message_or. rewrite Hm.
    by destruct (String.eqb_spec m "").
  - unfold message_or. by intros [->| ->].
Qed.

(** Closes [OnClose ∉ l] for a trace [l] written out. *)
Ltac not_closed :=
  let Hin := fresh "Hin" in
  intros Hin;
  repeat (apply elem_of_cons in Hin as [Hin|Hin]; [discriminate|]);
  by apply elem_of_nil in Hin.

Lemma no_toast_revoke (urls : list string) :
  List.filter isToast (map RevokeObjectURL urls) = [].
Proof. induction urls as [|u urls IH]; simpl; done. Qed.

(** X8. Whatever the mode, the form, the context and the service's
    answer, [handleSubmit] never throws.  It calls [preventDefault] first,
    makes at most one request and shows exactly one toast; and either it
    ends by calling [onClose] on the reset form, or it does not call
    [onClose] and leaves the state as it was. *)
Theorem handleSubmit_outcome
    (isEditMode : bool) (context : InstrumentContext)
    (instrumentService : InstrumentService) (st : State) (w : World) :
  ∃ t w',
    handleSubmit isEditMode context instrumentService st w = (Normal tt, w')
    ∧ trace w' = trace w ++ PreventDefault :: t
    ∧ length (List.filter isRequest t) ≤ 1
    ∧ length (List.filter isToast t) = 1
    ∧ ((last t = Some OnClose ∧ hook w' = cleared (hook w))
       ∨ ((OnClose ∉ t) ∧ hook w' = hook w)).
Proof.
  unfold handleSubmit. run.
  destruct (truthy (get (formData st) "idCategory")); run.
  2: { eexists; eexists; split; [reflexivity|]; simpl.
       split; [by rewrite <- !app_assoc|]. simpl. repeat split; try lia.
       right. split; [not_closed|done]. }
  destruct isEditMode; run.
  - destruct (service_updateInstrument instrumentService _) as [error|updated]; run.
    + repeat case_bool_decide; run;
        (eexists; eexists; split; [reflexivity|]; simpl;
         split; [by rewrite <- !app_assoc|]; simpl; repeat split; try lia;
         right; split; [not_closed|done]).
    + destruct (updateInstrument context); run; rewrite handleClose_run; run;
        (eexists; eexists; split; [reflexivity|]; simpl;
         split; [by rewrite <- !app_assoc|]; simpl;
         rewrite ?List.filter_app, ?no_request_revoke, ?no_toast_revoke; simpl;
         repeat split; try lia; left; split; [|done]);
        rewrite ?app_comm_cons; apply last_snoc.
  - destruct (imageData st) as [|d ds]; run.
    + destruct (imageFiles st) as [|f fs]; run;
        (eexists; eexists; split; [reflexivity|]; simpl;
         split; [by rewrite <- !app_assoc|]; simpl; repeat split; try lia;
         right; split; [not_closed|done]).
    + destruct (service_createInstrument instrumentService _) as [error|created]; run.
      * repeat case_bool_decide; run;
          (eexists; eexists; split; [reflexivity|]; simpl;
           split; [by rewrite <- !app_assoc|]; simpl; repeat split; try lia;
           right; split; [not_closed|done]).
      * destruct (addInstrument context); run; rewrite handleClose_run; run;
          (eexists; eexists; split; [reflexivity|]; simpl;
           split; [by rewrite <- !app_assoc|]; simpl;
           rewrite ?List.filter_app, ?no_request_revoke, ?no_toast_revoke; simpl;
           repeat split; try lia; left; split; [|done]);
          rewrite ?app_comm_cons; apply last_snoc.
Qed.

(** ** useInstrumentForm: opening the form *)

(** The loading effect on a record whose [imageUrls] is not a non-empty
    string. *)
Lemma hydrateEffect_normal (record : Obj) (st : State) (w : World) :
  initialLoad st = true →
  (∀ s, get record "imageUrls" = VStr s → s = "") →
  ∃ w',
    hydrateEffect (Some record) st w = (Normal tt, w')
    ∧ formData (hook w') = hydratedFormData record
    ∧ imageFiles (hook w') = imageFiles (hook w)
    ∧ initialLoad (hook w') = false
    ∧ trace w' = trace w.
Proof.
  intros Hload Hstr. unfold hydrateEffect. simpl. rewrite Hload. run.
  destruct (get record "imageUrls") as [| |b|n|s|[|u urls]] eqn:Eurls; run;
    try (rewrite (Hstr s eq_refl); run);
    eexists; (split; [reflexivity|]); done.
Qed.

(** Field edits in edit mode leave [initialLoad] as it is. *)
Lemma edits_initialLoad (targets : list Target.t) (w : World) :
  initialLoad (hook (edits true targets w)) = initialLoad (hook w).
Proof.
  revert w. induction targets as [|t targets IH]; intros w; [done|].
  rewrite edits_cons, IH.
  by destruct (handleInputChange_edit t w) as (fd & -> & _).
Qed.

(** X9. [initialLoad] does not limit the loading effect to one pass per
    opening.  A first pass loads the record and turns [initialLoad] off,
    and while it is off a further pass leaves the form, edits included, as
    it is.  But the open effect, which comes after the loading effect in
    the hook and runs in the commit that opens the form, turns
    [initialLoad] on again: the next pass of the loading effect then loads
    the record again and discards the edits made in between. *)
Theorem hydrateEffect_rearmed (record : Obj) (targets : list Target.t) (w : World) :
  initialLoad (hook w) = true →
  (∀ s, get record "imageUrls" = VStr s → s = "") →
  ∃ loaded w',
    fire (hydrateEffect (Some record)) w = (Normal tt, loaded)
    ∧ initialLoad (hook loaded) = false
    ∧ fire (hydrateEffect (Some record)) (edits true targets loaded)
      = (Normal tt, edits true targets loaded)
    ∧ initialLoad (hook (snd (openEffect true loaded))) = true
    ∧ fire (hydrateEffect (Some record))
        (edits true targets (snd (openEffect true loaded)))
      = (Normal tt, w')
    ∧ formData (hook w') = hydratedFormData record.
Proof.
  intros Hload Hstr.
  destruct (hydrateEffect_normal record (hook w) w Hload Hstr)
    as (loaded & Hrun & _ & _ & Hoff & _).
  assert (Hon : initialLoad (hook (snd (openEffect true loaded))) = true) by done.
  destruct (hydrateEffect_normal record
              (hook (edits true targets (snd (openEffect true loaded))))
              (edits true targets (snd (openEffect true loaded))))
    as (w' & Hrun' & Hfd & _); [by rewrite edits_initialLoad|exact Hstr|].
  exists loaded, w'. split; [exact Hrun|]. split; [exact Hoff|].
  split; [|split; [exact Hon|split; [exact Hrun'|exact Hfd]]].
  unfold fire, hydrateEffect. simpl. by rewrite edits_initialLoad, Hoff.
Qed.

Lemma dom_hydratedFormData (record : Obj) :
  dom (hydratedFormData record)
  = (list_to_set ["id"; "name"; "brand"; "model"; "year"; "stock"; "description";
                  "price"; "available"; "idCategory"; "imageUrls"] : gset string).
Proof.
  unfold hydratedFormData. rewrite !dom_insert_L, dom_empty_L. simpl.
  by rewrite !(assoc_L (∪)).
Qed.

Lemma js_or_truthy (a b : JsVal) : truthy a = true → a ||: b = a.
Proof. unfold js_or. by intros ->. Qed.

Lemma hydratedFormData_truthy (record : Obj) :
  (∀ field, field ∈ "available" :: "id" :: textFields →
     truthy (get record field) = true →
     get (hydratedFormData record) field = get record field)
  ∧ get (hydratedFormData record) "imageUrls" = VArr [].
Proof.
  unfold hydratedFormData, textFields. split.
  - intros field Hin Hf.
    repeat (apply elem_of_cons in Hin as [->|Hin];
            [repeat (rewrite get_insert_ne by done); rewrite get_insert_eq;
             by apply js_or_truthy|]).
    by apply elem_of_nil in Hin.
  - repeat (rewrite get_insert_ne by done). by rewrite get_insert_eq.
Qed.

(** X10. In edit mode, on the first pass after the form opens, the loaded
    [formData] has exactly the eleven keys of the form, whatever keys the
    record has; a truthy [id], [available] or text field of the record is
    taken over unchanged, and [formData.imageUrls] is the empty array
    whatever the record's [imageUrls] holds. *)
Theorem hydrateEffect_formData (record : Obj) (st : State) (w : World) :
  initialLoad st = true →
  ∃ r w',
    hydrateEffect (Some record) st w = (r, w')
    ∧ dom (formData (hook w'))
      = (list_to_set ["id"; "name"; "brand"; "model"; "year"; "stock"; "description";
                      "price"; "available"; "idCategory"; "imageUrls"] : gset string)
    ∧ (∀ field, field ∈ "available" :: "id" :: textFields →
         truthy (get record field) = true →
         get (formData (hook w')) field = get record field)
    ∧ get (formData (hook w')) "imageUrls" = VArr [].
Proof.
  intros Hload.
  destruct (hydrateEffect_run record st w Hload) as (r & w' & Hrun & Hfd & _).
  exists r, w'. rewrite Hfd. split; [done|]. split; [apply dom_hydratedFormData|].
  apply hydratedFormData_truthy.
Qed.

(** [handleSubmit] in edit mode with a category selected. *)
Lemma handleSubmit_edit_run
    (context : InstrumentContext) (instrumentService : InstrumentService)
    (st : State) (w : World) :
  truthy (get (formData st) "idCategory") = true →
  ∃ rest w',
    handleSubmit true context instrumentService st w = (Normal tt, w')
    ∧ trace w' = trace w ++
        [PreventDefault;
         UpdateRequest (<["id" := get (formData st) "id"]>
                          (<["idCategory" := get (formData st) "idCategory"]> ∅))]
        ++ rest
    ∧ List.filter isRequest rest = [].
Proof.
  intros Hcat. unfold handleSubmit. run. rewrite Hcat. run.
  destruct (service_updateInstrument instrumentService _) as [error|updated]; run.
  - repeat case_bool_decide; run; rewrite <- !app_assoc; simpl;
      eexists; eexists; (split; [reflexivity|]); simpl; by split.
  - destruct (updateInstrument context); run; rewrite handleClose_run; run;
      rewrite <- !app_assoc; simpl;
      eexists; eexists; (split; [reflexivity|]); simpl; (split; [reflexivity|]);
      simpl; by rewrite ?List.filter_app, ?no_request_revoke.
Qed.

(** X11. Opening a record that has a category and submitting without any
    edit sends one update request, for the record's own category and for
    its [id], or its [idProduct] when [id] is missing or falsy. *)
Theorem hydrate_then_submit
    (context : InstrumentContext) (instrumentService : InstrumentService)
    (record : Obj) (w : World) :
  initialLoad (hook w) = true →
  truthy (get record "idCategory") = true →
  (∀ s, get record "imageUrls" = VStr s → s = "") →
  ∃ opened rest w',
    fire (hydrateEffect (Some record)) w = (Normal tt, opened)
    ∧ fire (handleSubmit true context instrumentService) opened = (Normal tt, w')
    ∧ trace w' = trace w ++
        [PreventDefault;
         UpdateRequest (<["id" := get record "id" ||: get record "idProduct"]>
                          (<["idCategory" := get record "idCategory"]> ∅))]
        ++ rest
    ∧ List.filter isRequest rest = [].
Proof.
  intros Hload Hcat Hstr.
  destruct (hydrateEffect_normal record (hook w) w Hload Hstr)
    as (opened & Hrun & Hfd & _ & _ & Htrace).
  assert (Hcat' : get (formData (hook opened)) "idCategory" = get record "idCategory").
  { rewrite Hfd. apply hydratedFormData_truthy; [|done].
    unfold textFields. repeat constructor. }
  assert (Hid : get (formData (hook opened)) "id"
                = get record "id" ||: get record "idProduct").
  { rewrite Hfd. unfold hydratedFormData. apply get_insert_eq. }
  destruct (handleSubmit_edit_run context instrumentService (hook opened) opened)
    as (rest & w' & Hsub & Htr & Hreq); [by rewrite Hcat'|].
  exists opened, rest, w'. split; [exact Hrun|]. split; [exact Hsub|].
  split; [|exact Hreq]. by rewrite Htr, Htrace, Hid, Hcat'.
Qed.

(** X12. The cleanup effect changes the state only on the first pass of
    a form opened in create mode.  While the form is closed it releases
    the captured [blob:] previews and leaves every cell, the previews
    included, as it was; while the form is open in edit mode, or open
    with [initialLoad] off, it does nothing. *)
Theorem cleanupEffect_keeps_state (isOpen isEditMode : bool) (snap : State) (w : World) :
  (isOpen = false →
   cleanupEffect isOpen isEditMode snap w
   = (Normal tt,
      {| hook := hook w;
         trace := trace w ++ map RevokeObjectURL (blobs (imagePreviews snap)) |}))
  ∧ (isOpen = true → isEditMode = true ∨ initialLoad snap = false →
     cleanupEffect isOpen isEditMode snap w = (Normal tt, w)).
Proof.
  split.
  - intros ->. unfold cleanupEffect. simpl. apply forEach_revoke.
  - intros -> [->|Hload]; unfold cleanupEffect; simpl; [done|].
    rewrite Hload. by destruct isEditMode.
Qed.

(** X13. Opening the form in create mode always starts from the empty
    form, whatever the form held before: after the open effect and the
    cleanup effect of the next render, [formData] is the default, the four
    image cells are empty and [initialLoad] is off; the [blob:] previews
    the form still held are released; and a further pass of the cleanup
    effect or of the loading effect changes nothing. *)
Theorem open_create_mode (w : World) :
  ∃ w',
    fire (cleanupEffect true false) (snd (openEffect true w)) = (Normal tt, w')
    ∧ hook w' = {| formData := emptyFormData; imageFiles := []; imagePreviews := [];
                   existingImages := []; imageData := []; initialLoad := false |}
    ∧ trace w' = trace w ++ map RevokeObjectURL (blobs (imagePreviews (hook w)))
    ∧ fire (cleanupEffect true false) w' = (Normal tt, w')
    ∧ fire (hydrateEffect None) w' = (Normal tt, w').
Proof.
  unfold fire, openEffect, cleanupEffect. run. rewrite resetForm_run. run.
  eexists. split; [reflexivity|]. done.
Qed.

(** ** ImageUploader: what a file selection does in general *)

(** The loop over the files of a batch: the answers [rs] it stores, and the
    calls [t] it makes. *)
Lemma uploadEach_shape backend (hasSetImageData : bool) (i : nat)
    (files : list File.t) (w : World) :
  ∃ r rs t,
    uploadEach backend hasSetImageData i files w
    = (r, {| hook := appended (hook w) [] (map secureUrl rs)
                       (if hasSetImageData then map descriptor rs else []);
             trace := trace w ++ t |})
    ∧ length rs ≤ length files
    ∧ (r = Normal tt ∨ ∃ e, r = Threw e)
    ∧ (∃ k, List.filter isRequest t = map UploadRequest (take k files))
    ∧ List.filter isBusy t = []
    ∧ List.filter isAlert t = []
    ∧ revoked t = [].
Proof.
  revert i w. induction files as [|f files IH]; intros i w; simpl.
  - exists (Normal tt), [], []. simpl.
    replace (if hasSetImageData then [] else []) with (@nil ImageDescriptor)
      by by destruct hasSetImageData.
    rewrite appended_nil, app_nil_r. destruct w. repeat split; eauto.
    by exists 0.
  - unfold cloudinaryService.uploadImageViaBackend. run.
    destruct (backend i f) as [e|r]; run.
    + exists (Threw e), [],
        [UploadRequest f; ConsoleError "Error al subir imagen vía backend:"].
      simpl.
      replace (if hasSetImageData then [] else []) with (@nil ImageDescriptor)
        by by destruct hasSetImageData.
      rewrite appended_nil, <- app_assoc. simpl. repeat split; eauto; try lia.
      by exists 1.
    + destruct hasSetImageData; run;
        (match goal with |- context [uploadEach _ _ _ _ ?w1] =>
           destruct (IH (S i) w1)
             as (r' & rs & t & -> & Hlen & Hr & [k Hk] & Hbusy & Halert & Hrev) end;
         exists r', (r :: rs), (UploadRequest f :: t); simpl;
         rewrite Hk, Hbusy, Halert, Hrev; repeat split; eauto; try lia;
         [f_equal; f_equal;
          [unfold appended; simpl; by rewrite ?app_nil_r, <- ?app_assoc
          |by rewrite <- app_assoc]
         |by exists (S k)]).
Qed.

(** Closes the five parts of [handleImageUpload_shape] for an accepted
    batch, once the files, answers and calls are given. *)
Ltac upload_tail k Hk Hbusy Halert Hrev :=
  (split; [unfold appended; simpl; rewrite ?app_nil_r, <- ?app_assoc; simpl;
           reflexivity|]);
  (split; [right; lia|]);
  (split; [exists k; simpl; rewrite ?List.filter_app, Hk; simpl;
           by rewrite ?app_nil_r|]);
  (split; [right; right; eexists; split; [reflexivity|];
           rewrite ?List.filter_app, Hbusy, Halert; simpl; split; [done|lia]|]);
  simpl; by rewrite ?revoked_app, Hrev.

(** What [handleImageUpload] does, for any props, backend and files. *)
Lemma handleImageUpload_shape (isEditMode : bool) (previews : list string)
    (hasSetImageData hasSetImageFiles : bool)
    (backend : cloudinaryService.Backend) (files : list File.t) (w : World) :
  ∃ fs rs t,
    handleImageUpload isEditMode previews hasSetImageData hasSetImageFiles backend files w
    = (Normal tt,
       {| hook := appended (hook w) fs (map secureUrl rs)
                    (if hasSetImageData then map descriptor rs else []);
          trace := trace w ++ t |})
    ∧ (rs = [] ∨ length rs + length previews ≤ 5)
    ∧ (∃ k, List.filter isRequest t = map UploadRequest (take k files))
    ∧ (t = [] ∨ (∃ msg, t = [Alert msg])
       ∨ ∃ t', t = [SetIsUploading true] ++ t' ++ [SetIsUploading false]
               ∧ List.filter isBusy t' = []
               ∧ length (List.filter isAlert t') ≤ 1)
    ∧ revoked t = [].
Proof.
  assert (Hnil : (if hasSetImageData then @nil ImageDescriptor else []) = [])
    by by destruct hasSetImageData.
  unfold handleImageUpload. destruct isEditMode; run.
  { exists [], [], []. simpl. rewrite Hnil, appended_nil, app_nil_r.
    destruct w. repeat split; eauto. by exists 0. }
  destruct (Nat.ltb_spec 5 (length files + length previews)) as [Hmany|Hfit]; run.
  { exists [], [], [Alert "Máximo 5 imágenes permitidas"]. simpl.
    rewrite Hnil, appended_nil. repeat split; eauto. by exists 0. }
  destruct (Nat.eqb_spec
    (length (List.filter (λ file, String.prefix "image/" (File.type file)) files))
    (length files)) as [Hall|Hsome]; run.
  2: { exists [], [], [Alert "Solo se permiten archivos de imagen"]. simpl.
       rewrite Hnil, appended_nil. repeat split; eauto. by exists 0. }
  assert (Hvalid : List.filter (λ file, String.prefix "image/" (File.type file)) files
                   = files).
  { apply filter_all. intros x Hx.
    destruct (String.prefix "image/" (File.type x)) eqn:Hp; [done|].
    pose proof (filter_length_lt
      (λ file, String.prefix "image/" (File.type file)) files x Hx Hp). lia. }
  rewrite Hvalid.
  destruct hasSetImageFiles; run.
  - match goal with |- context [uploadEach _ _ _ _ ?w1] =>
      destruct (uploadEach_shape backend hasSetImageData 0 files w1)
        as (r & rs & t & Hrun & Hlen & Hr & [k Hk] & Hbusy & Halert & Hrev) end.
    rewrite Hrun; clear Hrun. destruct Hr as [->|[e ->]]; run.
    + exists files, rs, ([SetIsUploading true] ++ t ++ [SetIsUploading false]).
      upload_tail k Hk Hbusy Halert Hrev.
    + exists files, rs,
        ([SetIsUploading true]
         ++ (t ++ [ConsoleError "Error en la carga de imágenes:";
                   Alert "Error al subir imagen"])
         ++ [SetIsUploading false]).
      upload_tail k Hk Hbusy Halert Hrev.
  - match goal with |- context [uploadEach _ _ _ _ ?w1] =>
      destruct (uploadEach_shape backend hasSetImageData 0 files w1)
        as (r & rs & t & Hrun & Hlen & Hr & [k Hk] & Hbusy & Halert & Hrev) end.
    rewrite Hrun; clear Hrun. destruct Hr as [->|[e ->]]; run.
    + exists [], rs, ([SetIsUploading true] ++ t ++ [SetIsUploading false]).
      upload_tail k Hk Hbusy Halert Hrev.
    + exists [], rs,
        ([SetIsUploading true]
         ++ (t ++ [ConsoleError "Error en la carga de imágenes:";
                   Alert "Error al subir imagen"])
         ++ [SetIsUploading false]).
      upload_tail k Hk Hbusy Halert Hrev.
Qed.

(** X14. With [setImageData] passed, a file selection keeps the previews
    lined up with the metadata, whatever the mode, the files and the
    backend's answers, a batch that fails half-way included. *)
Theorem handleImageUpload_keeps_aligned (isEditMode : bool) (previews : list string)
    (hasSetImageFiles : bool) (backend : cloudinaryService.Backend)
    (files : list File.t) (w : World) :
  aligned (hook w) →
  aligned (hook (snd (handleImageUpload isEditMode previews true hasSetImageFiles
                        backend files w))).
Proof.
  unfold aligned. intros Hal.
  destruct (handleImageUpload_shape isEditMode previews true hasSetImageFiles
              backend files w) as (fs & rs & t & -> & _).
  simpl. rewrite Hal, map_app. f_equal.
  induction rs as [|r rs IH]; simpl; by rewrite ?IH.
Qed.

(** X15. A file selection handled against the previews the form shows
    never takes the form above five previews: a form with at most five
    previews has at most five afterwards. *)
Theorem handleImageUpload_at_most_five (isEditMode hasSetImageData hasSetImageFiles : bool)
    (backend : cloudinaryService.Backend) (files : list File.t) (w : World) :
  length (imagePreviews (hook w)) ≤ 5 →
  length (imagePreviews
            (hook (snd (fire (λ snap, handleImageUpload isEditMode (imagePreviews snap)
                                        hasSetImageData hasSetImageFiles backend files)
                          w)))) ≤ 5.
Proof.
  intros Hfive. unfold fire.
  destruct (handleImageUpload_shape isEditMode (imagePreviews (hook w)) hasSetImageData
              hasSetImageFiles backend files w) as (fs & rs & t & -> & [->|Hlen] & _);
    simpl; rewrite length_app, ?length_map; simpl; lia.
Qed.

(** X16. Whatever the props, the files and the backend's answers,
    [handleImageUpload] never throws and never releases an object URL.  It
    only appends to the three image cells and leaves the other cells
    alone; its upload requests are for the first files of the batch, in
    selection order; it shows at most one alert; and when it turns the
    busy flag on, it does so first and turns it off last. *)
Theorem handleImageUpload_behaviour (isEditMode : bool) (previews : list string)
    (hasSetImageData hasSetImageFiles : bool)
    (backend : cloudinaryService.Backend) (files : list File.t) (w : World) :
  ∃ t w',
    handleImageUpload isEditMode previews hasSetImageData hasSetImageFiles backend files w
    = (Normal tt, w')
    ∧ trace w' = trace w ++ t
    ∧ revoked t = []
    ∧ formData (hook w') = formData (hook w)
    ∧ existingImages (hook w') = existingImages (hook w)
    ∧ initialLoad (hook w') = initialLoad (hook w)
    ∧ imageFiles (hook w) `prefix_of` imageFiles (hook w')
    ∧ imagePreviews (hook w) `prefix_of` imagePreviews (hook w')
    ∧ imageData (hook w) `prefix_of` imageData (hook w')
    ∧ (∃ k, List.filter isRequest t = map UploadRequest (take k files))
    ∧ length (List.filter isAlert t) ≤ 1
    ∧ (List.filter isBusy t = []
       ∨ (List.filter isBusy t = [SetIsUploading true; SetIsUploading false]
          ∧ head t = Some (SetIsUploading true)
          ∧ last t = Some (SetIsUploading false))).
Proof.
  destruct (handleImageUpload_shape isEditMode previews hasSetImageData hasSetImageFiles
              backend files w) as (fs & rs & t & Hrun & _ & Hreq & Ht & Hrev).
  exists t. eexists. split; [exact Hrun|]. simpl.
  repeat (split; [first [done | by apply prefix_app_r]|]).
  destruct Ht as [->|[[msg ->]|(t' & -> & Hbusy & Halert)]]; simpl.
  - split; [lia|by left].
  - split; [lia|by left].
  - rewrite !List.filter_app, Hbusy. simpl. split.
    + rewrite length_app. simpl. lia.
    + right. split; [done|]. split; [done|].
      rewrite app_comm_cons. apply last_snoc.
Qed.

(** ** useInstrumentForm: the image cells as a whole *)

Lemma delete_app_l {A} (l1 l2 : list A) (i : nat) :
  i < length l1 → delete i (l1 ++ l2) = delete i l1 ++ l2.
Proof.
  revert i. induction l1 as [|x l1 IH]; intros [|i] H; simpl in *; try lia; [done|].
  f_equal. apply IH. lia.
Qed.

Lemma delete_app_r {A} (l1 l2 : list A) (i : nat) :
  length l1 ≤ i → delete i (l1 ++ l2) = l1 ++ delete (i - length l1) l2.
Proof.
  revert i. induction l1 as [|x l1 IH]; intros i H; simpl in *.
  - by rewrite Nat.sub_0_r.
  - destruct i as [|i]; [lia|]. simpl. f_equal. apply IH. lia.
Qed.

Lemma occurrences_absent (v : string) (l : list string) : v ∉ l → occurrences v l = 0.
Proof.
  unfold occurrences. induction l as [|u l IH]; intros Hv; simpl; [done|].
  apply not_elem_of_cons in Hv as [Hne Hv].
  rewrite (bool_decide_eq_false_2 (u = v)) by auto. by apply IH.
Qed.

Lemma NoDup_occurrences (v : string) (l : list string) (i : nat) :
  NoDup l → l !! i = Some v → occurrences v l = 1.
Proof.
  intros Hnd. revert i. induction Hnd as [|u l Hu Hnd IH]; intros i Hv; [done|].
  destruct i as [|i]; simpl in Hv.
  - injection Hv as ->. unfold occurrences. simpl.
    rewrite (bool_decide_eq_true_2 (v = v)) by auto. simpl.
    f_equal. by apply occurrences_absent.
  - unfold occurrences. simpl.
    rewrite (bool_decide_eq_false_2 (u = v)).
    + by apply (IH i).
    + intros ->. apply Hu. by eapply list_elem_of_lookup_2.
Qed.

(** X17. [removeImage] keeps the image cells fitting together: if the
    previews line up with the metadata, the existing images are the first
    previews and no preview is listed twice, the same holds after the
    removal, for any index and in either mode. *)
Theorem removeImage_keeps_consistent (isEditMode : bool) (index : nat) (w : World) :
  consistent (hook w) →
  consistent (hook (snd (fire (λ snap, removeImage isEditMode snap index) w))).
Proof.
  intros (Hal & [rest Hpre] & Hnd). destruct isEditMode.
  { unfold fire. rewrite removeImage_edit_mode. by repeat split; [|exists rest|]. }
  rewrite removeImage_run. unfold consistent, aligned in *.
  destruct (Nat.ltb_spec index (length (existingImages (hook w)))) as [Hlt|Hge]; simpl.
  - destruct (lookup_lt_is_Some_2 _ _ Hlt) as [v Hv]. rewrite Hv.
    assert (Hat : imagePreviews (hook w) !! index = Some v).
    { rewrite Hpre, lookup_app_l; done. }
    rewrite (without_once v _ index Hat (NoDup_occurrences v _ index Hnd Hat)).
    split; [by rewrite Hal, <- list_fmap_delete|]. split.
    + exists rest. rewrite Hpre at 1. by apply delete_app_l.
    + eapply sublist_NoDup; [exact Hnd|apply sublist_delete].
  - split; [by rewrite Hal, <- list_fmap_delete|]. split.
    + exists (delete (index - length (existingImages (hook w))) rest).
      rewrite Hpre at 1. by apply delete_app_r.
    + eapply sublist_NoDup; [exact Hnd|apply sublist_delete].
Qed.

(** X18. In create mode, an index beyond the previews, the metadata and
    the existing images removes no image: [removeImage] ends normally,
    makes no call and leaves [imagePreviews], [imageData], [existingImages]
    and [formData] as they were.  The raw file at the index minus the
    existing-images count, if there is one, is still dropped. *)
Theorem removeImage_out_of_range (index : nat) (w : World) :
  length (imagePreviews (hook w)) ≤ index →
  length (imageData (hook w)) ≤ index →
  length (existingImages (hook w)) ≤ index →
  fire (λ snap, removeImage false snap index) w
  = (Normal tt,
     {| hook := {| formData := formData (hook w);
                   imageFiles := delete (index - length (existingImages (hook w)))
                                        (imageFiles (hook w));
                   imagePreviews := imagePreviews (hook w);
                   existingImages := existingImages (hook w);
                   imageData := imageData (hook w);
                   initialLoad := initialLoad (hook w) |};
        trace := trace w |}).
Proof.
  intros Hprev Hdata Hex. rewrite removeImage_run.
  destruct (Nat.ltb_spec index (length (existingImages (hook w)))) as [Hlt|_]; [lia|].
  rewrite (lookup_ge_None_2 _ _ Hprev), app_nil_r.
  by rewrite (delete_ge index (imagePreviews (hook w))),
             (delete_ge index (imageData (hook w))).
Qed.

(** A field edit leaves the image cells alone. *)
Lemma handleInputChange_cells (isEditMode : bool) (target : Target.t) (w : World) :
  imagePreviews (hook (snd (handleInputChange isEditMode target w)))
  = imagePreviews (hook w)
  ∧ existingImages (hook (snd (handleInputChange isEditMode target w)))
    = existingImages (hook w)
  ∧ imageData (hook (snd (handleInputChange isEditMode target w)))
    = imageData (hook w).
Proof.
  destruct target as [name value type checked]. unfold handleInputChange.
  destruct isEditMode; run; [|done].
  destruct (String.eqb name "idCategory"); run; done.
Qed.

(** X19. In a form without existing images, the previews stay lined up
    with the metadata through any sequence of file selections, image
    removals and field edits, in either mode; and the form still has no
    existing image afterwards. *)
Theorem events_keep_aligned (isEditMode : bool) (events : list Event) (w : World) :
  existingImages (hook w) = [] →
  aligned (hook w) →
  existingImages (hook (foldl (λ w e, step isEditMode e w) w events)) = []
  ∧ aligned (hook (foldl (λ w e, step isEditMode e w) w events)).
Proof.
  revert w. induction events as [|e events IH]; intros w Hex Hal; [done|].
  simpl. apply IH; destruct e as [backend files|index|target]; unfold step.
  - unfold fire.
    destruct (handleImageUpload_shape isEditMode (imagePreviews (hook w)) true true
                backend files w) as (fs & rs & t & -> & _). done.
  - destruct isEditMode; [by unfold fire; rewrite removeImage_edit_mode|].
    rewrite removeImage_run, Hex. simpl. by destruct index.
  - by destruct (handleInputChange_cells isEditMode target w) as (_ & -> & _).
  - unfold fire.
    destruct (handleImageUpload_shape isEditMode (imagePreviews (hook w)) true true
                backend files w) as (fs & rs & t & -> & _).
    unfold aligned in *. simpl. rewrite Hal, map_app. f_equal.
    clear. induction rs as [|r rs IH]; simpl; by rewrite ?IH.
  - destruct isEditMode; [by unfold fire; rewrite removeImage_edit_mode|].
    rewrite removeImage_run, Hex. unfold aligned in *. simpl.
    destruct index; simpl; by rewrite Hal, <- list_fmap_delete.
  - unfold aligned in *.
    by destruct (handleInputChange_cells isEditMode target w) as (-> & _ & ->).
Qed.

(** ** The category list and the upload client *)

(** X20. The category effect never fails and always leaves a list.  The
    list is the array found at [response.categories] of the answer when
    there is one, and empty otherwise; an answer of any other shape logs
    the shape message, and only a failed request logs the request message:
    the unguarded read of [data.response.categories] never throws. *)
Theorem fetchCategories_shape (getCategories : JsError + Json) :
  (∀ data categories,
     getCategories = inr data →
     optionalMember (optionalMember data "response") "categories" = JArr categories →
     fetchCategories getCategories = (categories, []))
  ∧ (∀ data,
       getCategories = inr data →
       (∀ categories,
          optionalMember (optionalMember data "response") "categories" ≠ JArr categories) →
       fetchCategories getCategories = ([], ["La API no devolvió un array:"]))
  ∧ (∀ error,
       getCategories = inl error →
       fetchCategories getCategories = ([], ["Error al obtener categorías:"])).
Proof.
  split; [|split].
  - intros data categories -> Hcat. unfold fetchCategories. rewrite Hcat. simpl.
    destruct data as [| | | | | |fields]; try discriminate. simpl in *.
    destruct (fields !! "response") as [[| | | | | |inner]|]; try discriminate.
    simpl in *. by rewrite Hcat.
  - intros data -> Hno. unfold fetchCategories.
    destruct (json_truthy _) eqn:Htruthy; [|done].
    destruct data as [| | | | | |fields]; try discriminate. simpl in *.
    destruct (fields !! "response") as [[| | | | | |inner]|]; try discriminate.
    simpl in *.
    destruct (default JUndefined (inner !! "categories")) eqn:Hc; try done.
    by destruct (Hno items).
  - by intros error ->.
Qed.

Lemma append_cancel (p a b : string) : (p ++ a)%string = (p ++ b)%string → a = b.
Proof. induction p as [|c p IH]; simpl; [done|]. intros [= H]. by apply IH. Qed.

(** X21. [deleteImage] makes one DELETE request, to the backend address
    followed by [/api/cloudinary/delete/] and the public id as it is; two
    ids give the same address only if they are the same id.  It settles
    with the answer's data, or logs once and fails with the very error of
    the request. *)
Theorem deleteImage_request (config : Config) (axios : Transport) (publicId : string) :
  requests (deleteImage config axios publicId)
  = [HttpDelete (BACKEND_URL config ++ "/api/cloudinary/delete/" ++ publicId)]
  ∧ outcome (deleteImage config axios publicId)
    = axios (HttpDelete (BACKEND_URL config ++ "/api/cloudinary/delete/" ++ publicId))
  ∧ (logged (deleteImage config axios publicId) = []
     ↔ ∃ data, outcome (deleteImage config axios publicId) = inr data)
  ∧ length (logged (deleteImage config axios publicId)) ≤ 1
  ∧ ∀ other,
      requests (deleteImage config axios other)
      = requests (deleteImage config axios publicId) →
      other = publicId.
Proof.
  unfold deleteImage.
  split; [by destruct (axios _)|]. split; [by destruct (axios _)|].
  split; [destruct (axios _); simpl; split; try done; eauto; by intros [? ?]|].
  split; [destruct (axios _); simpl; lia|].
  intros other Hsame.
  assert (Href : [HttpDelete (BACKEND_URL config ++ "/api/cloudinary/delete/" ++ other)]
                 = [HttpDelete (BACKEND_URL config ++ "/api/cloudinary/delete/" ++ publicId)]).
  { revert Hsame. by do 2 destruct (axios _). }
  injection Href as Href.
  by apply append_cancel, append_cancel in Href.
Qed.

(** X22. [uploadImageDirect] makes one POST request to the provider's
    address, with the file and the upload preset.  It settles with the
    [secure_url] of the answer, which is [undefined] when the answer has
    none; an answer without a body fails with a TypeError, and a failed
    request with the very error of the request, each logged once. *)
Theorem uploadImageDirect_result (config : Config) (axios : Transport) (file : File.t) :
  requests (uploadImageDirect config axios file)
  = [HttpPost (CLOUDINARY_URL config)
       [("file", FilePart file);
        ("upload_preset", TextPart (CLOUDINARY_UPLOAD_PRESET config))]]
  ∧ (∀ fields,
       axios (HttpPost (CLOUDINARY_URL config)
                [("file", FilePart file);
                 ("upload_preset", TextPart (CLOUDINARY_UPLOAD_PRESET config))])
       = inr (JObj fields) →
       outcome (uploadImageDirect config axios file)
       = inr (default JUndefined (fields !! "secure_url"))
       ∧ logged (uploadImageDirect config axios file) = [])
  ∧ (∀ data,
       axios (HttpPost (CLOUDINARY_URL config)
                [("file", FilePart file);
                 ("upload_preset", TextPart (CLOUDINARY_UPLOAD_PRESET config))])
       = inr data →
       data = JUndefined ∨ data = JNull →
       (∃ error, outcome (uploadImageDirect config axios file) = inl error)
       ∧ logged (uploadImageDirect config axios file)
         = ["Error al subir imagen a Cloudinary:"])
  ∧ (∀ error,
       axios (HttpPost (CLOUDINARY_URL config)
                [("file", FilePart file);
                 ("upload_preset", TextPart (CLOUDINARY_UPLOAD_PRESET config))])
       = inl error →
       outcome (uploadImageDirect config axios file) = inl error
       ∧ logged (uploadImageDirect config axios file)
         = ["Error al subir imagen a Cloudinary:"]).
Proof.
  unfold uploadImageDirect. split; [|split; [|split]].
  - destruct (axios _) as [e|data]; [done|]. by destruct (member data "secure_url").
  - by intros fields ->.
  - intros data -> [->| ->]; simpl; eauto.
  - by intros error ->.
Qed.

(** X23. In create mode, uploading one image and then removing the
    preview it added brings the form back to where it was: when the three
    image cells line up (as many metadata entries as previews, and one raw
    file per preview beyond the existing images), a single image file that
    fits under the limit and uploads successfully, followed by the removal
    of the last preview, restores every cell.  The only calls are the busy
    flag, the upload request and, for an answer that starts with [blob:],
    the release of that URL. *)
Theorem upload_then_remove (backend : cloudinaryService.Backend) (file : File.t)
    (r : UploadResponse) (w : World) :
  length (existingImages (hook w)) ≤ length (imagePreviews (hook w)) →
  length (imageData (hook w)) = length (imagePreviews (hook w)) →
  length (imageFiles (hook w))
    = length (imagePreviews (hook w)) - length (existingImages (hook w)) →
  length (imagePreviews (hook w)) < 5 →
  String.prefix "image/" (File.type file) = true →
  backend 0 file = inr r →
  fire (λ snap, removeImage false snap (length (imagePreviews (hook w))))
    (snd (fire (λ snap, handleImageUpload false (imagePreviews snap) true true
                          backend [file]) w))
  = (Normal tt,
     {| hook := hook w;
        trace := trace w ++ [SetIsUploading true; UploadRequest file; SetIsUploading false]
                   ++ (if String.prefix "blob:" (secureUrl r)
                       then [RevokeObjectURL (secureUrl r)] else []) |}).
Proof.
  intros Hex Hdata Hfiles Hfit Himg Hok.
  assert (Hup : fire (λ snap, handleImageUpload false (imagePreviews snap) true true
                                backend [file]) w
                = (Normal tt,
                   {| hook := appended (hook w) [file] [secureUrl r] [descriptor r];
                      trace := trace w ++ [SetIsUploading true; UploadRequest file;
                                           SetIsUploading false] |})).
  { unfold fire, handleImageUpload. run.
    destruct (Nat.ltb_spec 5 (S (length (imagePreviews (hook w))))) as [?|_]; [lia|].
    rewrite Himg. run. unfold cloudinaryService.uploadImageViaBackend. run.
    rewrite Hok. run. by rewrite <- !app_assoc. }
  rewrite Hup, removeImage_run. simpl.
  destruct (Nat.ltb_spec (length (imagePreviews (hook w)))
              (length (existingImages (hook w)))) as [?|_]; [lia|].
  rewrite <- Hfiles.
  rewrite (delete_middle (imageFiles (hook w)) [] file).
  rewrite (delete_middle (imagePreviews (hook w)) [] (secureUrl r)).
  replace (delete (length (imagePreviews (hook w))) (imageData (hook w) ++ [descriptor r]))
    with (imageData (hook w))
    by (rewrite <- Hdata; by rewrite delete_middle, app_nil_r).
  rewrite !app_nil_r, lookup_app_r, Nat.sub_diag by done. simpl.
  destruct w as [[fd fs ps es ds il] tr]. simpl. by rewrite <- app_assoc.
Qed.

End Properties.

(** * Concrete runs *)

(** The handlers evaluated on the concrete inputs, with the integer runtime. *)

Example Number_examples :
  Number "3" = Some 3%Z ∧ Number "" = Some 0%Z ∧ Number "guitars" = None.
Proof. by vm_compute. Qed.

(** C6 on a concrete input: six image files selected when no preview is
    shown are rejected, and the preview count stays 0. *)
Lemma handleImageUpload_rejects_batch_witness :
  (5 < length sixFiles + length (imagePreviews mounted)
   ∨ ∃ file, file ∈ sixFiles ∧ String.prefix "image/" (File.type file) = false)
  ∧ ∃ msg,
      handleImageUpload false (imagePreviews mounted) true true storing sixFiles
        (start mounted)
      = (Normal tt, {| hook := mounted; trace := [Alert msg] |}).
Proof.
  split.
  - left. simpl. lia.
  - apply (handleImageUpload_rejects_batch [] true true storing sixFiles (start mounted)).
    left. simpl. lia.
Defined.

Example handleImageUpload_rejects_pdf :
  handleImageUpload false [] true true storing [png "1.png"; pdf "2.pdf"] (start mounted)
  = (Normal tt,
     {| hook := mounted; trace := [Alert "Solo se permiten archivos de imagen"] |}).
Proof. reflexivity. Qed.

(** The three files are images. *)
Lemma threeFiles_images (files : list File.t) :
  files = threeFiles →
  ∀ file, file ∈ files → String.prefix "image/" (File.type file) = true.
Proof.
  intros -> file Hin. unfold threeFiles in Hin.
  repeat (apply elem_of_cons in Hin as [->|Hin]; [reflexivity|]).
  by apply elem_of_nil in Hin.
Defined.

(** C7 on a concrete input: three image files, all stored. *)
Lemma handleImageUpload_appends_in_order_witness :
  (length threeFiles + length (imagePreviews mounted) ≤ 5
   ∧ (∀ file, file ∈ threeFiles → String.prefix "image/" (File.type file) = true)
   ∧ answers storing 0 threeFiles threeAnswers)
  ∧ handleImageUpload false (imagePreviews mounted) true true storing threeFiles
      (start mounted)
    = (Normal tt,
       {| hook := appended mounted threeFiles (map secureUrl threeAnswers)
                    (map descriptor threeAnswers);
          trace := [SetIsUploading true] ++ map UploadRequest threeFiles
                     ++ [SetIsUploading false] |})
  ∧ length (map secureUrl threeAnswers) = length threeFiles
  ∧ length (map descriptor threeAnswers) = length threeFiles.
Proof.
  assert (H1 : length threeFiles + length (imagePreviews mounted) ≤ 5) by (simpl; lia).
  assert (H3 : answers storing 0 threeFiles threeAnswers) by (simpl; auto).
  split; [split; [exact H1|split; [exact (threeFiles_images _ eq_refl)|exact H3]]|].
  apply (handleImageUpload_appends_in_order [] storing threeFiles threeAnswers
           (start mounted) H1 (threeFiles_images _ eq_refl) H3).
Defined.

Example handleImageUpload_three_previews :
  imagePreviews
    (hook (snd (handleImageUpload false [] true true storing threeFiles (start mounted))))
  = ["https://res.example/1.png"; "https://res.example/2.png";
     "https://res.example/3.png"].
Proof. reflexivity. Qed.

(** C10 on a concrete input: three image files, the second upload fails. *)
Lemma handleImageUpload_partial_failure_witness :
  (length ([png "1.png"] ++ png "2.png" :: [png "3.png"])
     + length (imagePreviews mounted) ≤ 5
   ∧ (∀ file, file ∈ [png "1.png"] ++ png "2.png" :: [png "3.png"] →
        String.prefix "image/" (File.type file) = true)
   ∧ answers failingAfterOne 0 [png "1.png"] [answer "https://res.example/1.png"]
   ∧ failingAfterOne (length [png "1.png"]) (png "2.png")
     = inl {| status := Some 502%Z; message := Some "Bad Gateway" |})
  ∧ ∃ w',
      handleImageUpload false (imagePreviews mounted) true true failingAfterOne
        ([png "1.png"] ++ png "2.png" :: [png "3.png"]) (start mounted)
      = (Normal tt, w')
      ∧ imageFiles (hook w') = [png "1.png"; png "2.png"; png "3.png"]
      ∧ imagePreviews (hook w') = ["https://res.example/1.png"]
      ∧ imageData (hook w') = [descriptor (answer "https://res.example/1.png")].
Proof.
  assert (H1 : length ([png "1.png"] ++ png "2.png" :: [png "3.png"])
                 + length (imagePreviews mounted) ≤ 5) by (simpl; lia).
  assert (H3 : answers failingAfterOne 0 [png "1.png"]
                 [answer "https://res.example/1.png"]) by (simpl; auto).
  split; [split; [exact H1|split; [exact (threeFiles_images _ eq_refl)|split;
            [exact H3|reflexivity]]]|].
  destruct (handleImageUpload_partial_failure [] failingAfterOne
              [png "1.png"] (png "2.png") [png "3.png"]
              [answer "https://res.example/1.png"]
              {| status := Some 502%Z; message := Some "Bad Gateway" |}
              (start mounted) H1 (threeFiles_images _ eq_refl) H3 eq_refl)
    as (w' & Hrun & Hfiles & Hprev & Hdata & _).
  exists w'. auto.
Defined.

(** C4 on a concrete input: a create form with a category and no image. *)
Lemma handleSubmit_create_without_metadata_witness :
  (truthy (get (formData (withCategory mounted 2)) "idCategory") = true
   ∧ imageData (withCategory mounted 2) = [])
  ∧ (imageFiles (withCategory mounted 2) = [] →
     handleSubmit false bothCallbacks echoing (withCategory mounted 2)
       (start (withCategory mounted 2))
     = (Normal tt,
        {| hook := withCategory mounted 2;
           trace := [PreventDefault; ErrorToast "Debes agregar al menos una imagen."] |}))
  ∧ (imageFiles (withCategory mounted 2) ≠ [] →
     handleSubmit false bothCallbacks echoing (withCategory mounted 2)
       (start (withCategory mounted 2))
     = (Normal tt,
        {| hook := withCategory mounted 2;
           trace := [PreventDefault;
                     ErrorToast "Las imágenes aún no se han subido correctamente."] |})).
Proof.
  assert (H1 : truthy (get (formData (withCategory mounted 2)) "idCategory") = true)
    by reflexivity.
  split; [split; [exact H1|reflexivity]|].
  apply (handleSubmit_create_without_metadata bothCallbacks echoing
           (withCategory mounted 2) (start (withCategory mounted 2)) H1 eq_refl).
Defined.

Example handleSubmit_files_without_metadata :
  trace (snd (handleSubmit false bothCallbacks echoing
                {| formData := formData (withCategory mounted 2);
                   imageFiles := [png "1.png"]; imagePreviews := [];
                   existingImages := []; imageData := []; initialLoad := false |}
                (start mounted)))
  = [PreventDefault; ErrorToast "Las imágenes aún no se han subido correctamente."].
Proof. reflexivity. Qed.

(** C8 on a concrete input: the create request fails with status 409. *)
Lemma handleSubmit_create_failure_witness :
  (truthy (get (formData ready) "idCategory") = true
   ∧ imageData ready ≠ []
   ∧ service_createInstrument (failing conflict)
       (<["imageUrls" := VArr (map url (imageData ready))]> (formData ready))
     = inl conflict)
  ∧ ∃ toast,
      handleSubmit false bothCallbacks (failing conflict) ready (start ready)
      = (Normal tt,
         {| hook := ready;
            trace :=
              [PreventDefault;
               CreateRequest
                 (<["imageUrls" := VArr (map url (imageData ready))]> (formData ready));
               ConsoleError "Error completo:";
               ErrorToast toast] |})
      ∧ toast = "El instrumento ya existe. Intenta con otro nombre.".
Proof.
  assert (H1 : truthy (get (formData ready) "idCategory") = true) by reflexivity.
  assert (H2 : imageData ready ≠ []) by discriminate.
  split; [split; [exact H1|split; [exact H2|reflexivity]]|].
  destruct (handleSubmit_create_failure bothCallbacks (failing conflict) ready
              (start ready) conflict H1 H2 eq_refl) as (toast & Hrun & H409 & _).
  exists toast. split; [exact Hrun|]. apply H409. reflexivity.
Defined.

(** C8, refuted as stated. A create request that fails with an error whose
    message is the empty string, and with no status among 409, 400 and
    500, does not surface that message: the toast shows the fallback text
    "Error al crear el instrumento.". *)
Lemma handleSubmit_create_failure_fallback :
  message {| status := None; message := Some "" |} = Some ""
  ∧ last (trace (snd (handleSubmit false bothCallbacks
                        (failing {| status := None; message := Some "" |})
                        ready (start ready))))
    = Some (ErrorToast "Error al crear el instrumento.")
  ∧ ErrorToast "Error al crear el instrumento." ≠ ErrorToast "".
Proof. split; [reflexivity|]. split; [reflexivity|discriminate]. Qed.

(** C3 on a concrete input: the record [{id: 7, idCategory: 2}], an
    attempted edit of the name, and the category changed to 3. *)
Lemma handleSubmit_edit_payload_witness :
  truthy (get (formData (hook (edits true [typed "name" "Stratocaster";
                                            typed "idCategory" "3"]
                                 (start editing)))) "idCategory") = true
  ∧ ∃ payload rest w',
      fire (handleSubmit true bothCallbacks echoing)
        (edits true [typed "name" "Stratocaster"; typed "idCategory" "3"] (start editing))
      = (Normal tt, w')
      ∧ trace w' = [PreventDefault; UpdateRequest payload] ++ rest
      ∧ List.filter isRequest rest = []
      ∧ payload !! "id" = Some (VNum (Some 7%Z))
      ∧ payload !! "idCategory" = Some (VNum (Some 3%Z))
      ∧ dom payload = ({["id"]} ∪ {["idCategory"]} : gset string).
Proof.
  assert (H1 : truthy (get (formData (hook (edits true [typed "name" "Stratocaster";
                                            typed "idCategory" "3"]
                                 (start editing)))) "idCategory") = true)
    by (vm_compute; reflexivity).
  split; [exact H1|].
  destruct (handleSubmit_edit_payload bothCallbacks echoing
              [typed "name" "Stratocaster"; typed "idCategory" "3"] (start editing) H1)
    as (payload & rest & w' & Hrun & Htrace & Hreq & Hid & Hcat & Hdom).
  exists payload, rest, w'. repeat split; assumption.
Defined.

(** C3, refuted as stated. In edit mode a form can have no category
    selected: the form of a record without a category, and the form whose
    category select was set back to its empty option ([Number("")] is 0).
    A submit then shows the validation toast and sends nothing to the
    update endpoint. *)
Lemma handleSubmit_edit_without_category :
  trace (snd (fire (handleSubmit true bothCallbacks echoing) (start editingUncategorized)))
  = [PreventDefault; ErrorToast "Debes seleccionar una categoría."]
  ∧ trace (snd (fire (handleSubmit true bothCallbacks echoing)
                  (edits true [typed "idCategory" ""] (start editing))))
    = [PreventDefault; ErrorToast "Debes seleccionar una categoría."].
Proof. split; vm_compute; reflexivity. Qed.

(** C5 on a concrete input: the category select set to the option [3]. *)
Lemma handleInputChange_create_witness :
  ∃ v,
    handleInputChange false (typed "idCategory" "3") (start mounted)
    = (Normal tt,
       {| hook := {| formData := <["idCategory" := v]> (formData mounted);
                     imageFiles := []; imagePreviews := []; existingImages := [];
                     imageData := []; initialLoad := true |};
          trace := [] |})
    ∧ v = VNum (Some 3%Z).
Proof.
  destruct (handleInputChange_create (typed "idCategory" "3") (start mounted))
    as (v & Hrun & _ & Hcat & _).
  exists v. split; [exact Hrun|].
  destruct (Hcat ltac:(discriminate) eq_refl) as [_ Hz]. apply (Hz 3%Z). reflexivity.
Defined.

(** C5, refuted as stated. Typing a text that is no number into the field
    [idCategory] stores [Number("guitars")], which is [NaN] and no
    integer. *)
Lemma handleInputChange_category_not_integer :
  get (formData (hook (snd (handleInputChange false (typed "idCategory" "guitars")
                              (start mounted))))) "idCategory"
  = VNum None
  ∧ ¬ ∃ z : Z, VNum None = VNum (num_of_Z z).
Proof.
  split; [vm_compute; reflexivity|]. intros [z Hz]. discriminate Hz.
Qed.

Example handleInputChange_coercions :
  get (formData (hook (edits false
         [ {| Target.name := "available"; Target.value := "on";
              Target.type := "checkbox"; Target.checked := true |};
           typed "idCategory" "3"; typed "brand" "Fender" ]
         (start mounted)))) "available" = VBool true
  ∧ get (formData (hook (edits false [typed "available" "true"] (start mounted))))
      "available" = VBool true
  ∧ get (formData (hook (edits false [typed "available" "yes"] (start mounted))))
      "available" = VBool false
  ∧ get (formData (hook (edits false [typed "brand" "Fender"] (start mounted))))
      "brand" = VStr "Fender".
Proof. repeat split; vm_compute; reflexivity. Qed.


(** C1 on a concrete input: the local preview at index 0 is removed. *)
Lemma removeImage_create_mode_witness :
  (0 < length (imagePreviews (hook (start twoImages)))
   ∧ 0 < length (imageData (hook (start twoImages))))
  ∧ ∃ w',
      fire (λ snap, removeImage false snap 0) (start twoImages) = (Normal tt, w')
      ∧ imageData (hook w') = [bare "https://res.example/b.png"]
      ∧ imagePreviews (hook w') = ["https://res.example/b.png"]
      ∧ imageFiles (hook w') = [png "b.png"]
      ∧ trace w' = [RevokeObjectURL "blob:a"].
Proof.
  assert (H1 : 0 < length (imagePreviews (hook (start twoImages)))) by (simpl; lia).
  assert (H2 : 0 < length (imageData (hook (start twoImages)))) by (simpl; lia).
  split; [split; [exact H1|exact H2]|].
  destruct (removeImage_create_mode 0 (start twoImages) H1 H2)
    as (w' & Hrun & _ & Hdata & _ & Hnew & _).
  destruct (Hnew ltac:(simpl; lia)) as (Hprev & _ & Hfiles & _ & Htrace).
  exists w'. split; [exact Hrun|]. split; [exact Hdata|]. split; [exact Hprev|].
  split; [exact Hfiles|]. exact (Htrace "blob:a" eq_refl).
Defined.

(** C1, refuted as stated. In edit mode [removeImage] returns at once, so
    an index in range shortens nothing.  In create mode, within the
    existing-images prefix, the removal by URL match drops every preview
    equal to the URL: with the URL listed twice, [imagePreviews] gets two
    entries shorter while [imageData] gets one entry shorter. *)
Lemma removeImage_not_one_shorter :
  (0 < length (imagePreviews shown) ∧ 0 < length (imageData shown)
   ∧ length (imagePreviews
               (hook (snd (fire (λ snap, removeImage true snap 0) (start shown)))))
     = length (imagePreviews shown)
   ∧ length (imageData
               (hook (snd (fire (λ snap, removeImage true snap 0) (start shown)))))
     = length (imageData shown))
  ∧ (0 < length (imagePreviews listedTwice) ∧ 0 < length (imageData listedTwice)
     ∧ length (imagePreviews listedTwice) = 2
     ∧ length (imagePreviews
                 (hook (snd (fire (λ snap, removeImage false snap 0) (start listedTwice)))))
       = 0
     ∧ length (imageData
                 (hook (snd (fire (λ snap, removeImage false snap 0) (start listedTwice)))))
       = 1).
Proof. vm_compute. repeat split; lia. Qed.

(** C2 on a concrete input: a local preview is uploaded, the first
    preview is removed, a field is edited, a stored image is uploaded,
    and the form is closed. *)
Lemma lifecycle_releases_once_witness :
  (revoked (trace (start onePreview)) = []
   ∧ (∀ u, u ∈ existingImages (hook (start onePreview)) →
        String.prefix "blob:" u = false))
  ∧ revoked (trace (closing false cycle (start onePreview)))
    ≡ₚ blobs (held false cycle (start onePreview))
  ∧ (NoDup (blobs (held false cycle (start onePreview))) →
     NoDup (revoked (trace (closing false cycle (start onePreview)))))
  ∧ (∀ u, u ∈ revoked (trace (closing false cycle (start onePreview)))
          ↔ u ∈ held false cycle (start onePreview) ∧ String.prefix "blob:" u = true)
  ∧ (∀ u, String.prefix "blob:" u = false →
          u ∉ revoked (trace (closing false cycle (start onePreview))))
  ∧ imagePreviews (hook (closing false cycle (start onePreview))) = [].
Proof.
  assert (H2 : ∀ u, u ∈ existingImages (hook (start onePreview)) →
                 String.prefix "blob:" u = false).
  { intros u Hu. simpl in Hu. by apply elem_of_nil in Hu. }
  split; [split; [reflexivity|exact H2]|].
  apply (lifecycle_releases_once false cycle (start onePreview) eq_refl H2).
Defined.

Example lifecycle_released :
  held false cycle (start onePreview)
  = ["blob:a"; "blob:c.png"; "https://res.example/d.png"]
  ∧ revoked (trace (closing false cycle (start onePreview))) = ["blob:a"; "blob:c.png"].
Proof. split; vm_compute; reflexivity. Qed.

(** C2, refuted as stated. The close effect releases the [blob:] previews
    but leaves them in [imagePreviews]; the reset that runs when the form
    opens again in create mode releases the same handle a second time. *)
Lemma close_then_reopen_releases_twice :
  revoked (trace (closeThenReopen (start onePreview))) = ["blob:a"; "blob:a"].
Proof. vm_compute. reflexivity. Qed.

(** ** Further concrete runs *)

(** X4 on a concrete input: the form as mounted has no category. *)
Lemma handleSubmit_without_category_witness :
  truthy (get (formData mounted) "idCategory") = false
  ∧ handleSubmit false bothCallbacks echoing mounted (start mounted)
    = (Normal tt,
       {| hook := mounted;
          trace := [PreventDefault; ErrorToast "Debes seleccionar una categoría."] |}).
Proof.
  assert (H1 : truthy (get (formData mounted) "idCategory") = false) by reflexivity.
  split; [exact H1|].
  apply (handleSubmit_without_category false bothCallbacks echoing mounted
           (start mounted) H1).
Defined.

(** X5 on a concrete input: a create form with a category and one
    uploaded image, and a service that accepts it. *)
Lemma handleSubmit_create_success_witness :
  (truthy (get (formData ready) "idCategory") = true
   ∧ imageData ready ≠ []
   ∧ service_createInstrument echoing
       (<["imageUrls" := VArr (map url (imageData ready))]> (formData ready))
     = inr (<["imageUrls" := VArr ["https://res.example/1.png"]]> (formData ready)))
  ∧ handleSubmit false bothCallbacks echoing ready (start ready)
    = (Normal tt,
       {| hook := cleared ready;
          trace :=
            [PreventDefault;
             CreateRequest
               (<["imageUrls" := VArr (map url (imageData ready))]> (formData ready));
             ContextAddInstrument
               (<["imageUrls" := VArr ["https://res.example/1.png"]]> (formData ready));
             SuccessToast "Instrumento agregado con éxito.";
             OnClose] |}).
Proof.
  assert (H1 : truthy (get (formData ready) "idCategory") = true) by reflexivity.
  assert (H2 : imageData ready ≠ []) by discriminate.
  split; [split; [exact H1|split; [exact H2|reflexivity]]|].
  apply (handleSubmit_create_success bothCallbacks echoing ready (start ready)
           (<["imageUrls" := VArr ["https://res.example/1.png"]]> (formData ready))
           H1 H2 eq_refl).
Defined.

(** X6 on a concrete input: the record [{id: 7, idCategory: 2}] in edit
    mode, and a service that accepts the update. *)
Lemma handleSubmit_edit_success_witness :
  (truthy (get (formData editing) "idCategory") = true
   ∧ service_updateInstrument echoing
       (<["id" := get (formData editing) "id"]>
          (<["idCategory" := get (formData editing) "idCategory"]> ∅))
     = inr (<["id" := get (formData editing) "id"]>
              (<["idCategory" := get (formData editing) "idCategory"]> ∅)))
  ∧ handleSubmit true bothCallbacks echoing editing (start editing)
    = (Normal tt,
       {| hook := cleared editing;
          trace :=
            [PreventDefault;
             UpdateRequest (<["id" := get (formData editing) "id"]>
                              (<["idCategory" := get (formData editing) "idCategory"]> ∅));
             ContextUpdateInstrument
               (<["id" := get (formData editing) "id"]>
                  (<["idCategory" := get (formData editing) "idCategory"]> ∅));
             SuccessToast "Categoría del instrumento actualizada con éxito.";
             OnClose] |}).
Proof.
  assert (H1 : truthy (get (formData editing) "idCategory") = true)
    by (vm_compute; reflexivity).
  split; [split; [exact H1|reflexivity]|].
  apply (handleSubmit_edit_success bothCallbacks echoing editing (start editing) _
           H1 eq_refl).
Defined.

(** X7 on a concrete input: the update request fails with status 409. *)
Lemma handleSubmit_edit_failure_witness :
  (truthy (get (formData editing) "idCategory") = true
   ∧ service_updateInstrument (failing conflict)
       (<["id" := get (formData editing) "id"]>
          (<["idCategory" := get (formData editing) "idCategory"]> ∅))
     = inl conflict)
  ∧ ∃ toast,
      handleSubmit true bothCallbacks (failing conflict) editing (start editing)
      = (Normal tt,
         {| hook := editing;
            trace :=
              [PreventDefault;
               UpdateRequest (<["id" := get (formData editing) "id"]>
                                (<["idCategory" := get (formData editing) "idCategory"]> ∅));
               ConsoleError "Error completo:";
               ErrorToast toast] |})
      ∧ toast = "El instrumento ya existe. Intenta con otro nombre.".
Proof.
  assert (H1 : truthy (get (formData editing) "idCategory") = true)
    by (vm_compute; reflexivity).
  split; [split; [exact H1|reflexivity]|].
  destruct (handleSubmit_edit_failure bothCallbacks (failing conflict) editing
              (start editing) conflict H1 eq_refl) as (toast & Hrun & H409 & _).
  exists toast. split; [exact Hrun|]. apply H409. reflexivity.
Defined.

(** X9 on a concrete input: the record [{id: 7, idCategory: 2}] is
    opened in the form as mounted and the category is set to [3]. *)
Lemma hydrateEffect_rearmed_witness :
  (initialLoad (hook (start mounted)) = true
   ∧ (∀ s, get guitar "imageUrls" = VStr s → s = ""))
  ∧ ∃ loaded w',
      fire (hydrateEffect (Some guitar)) (start mounted) = (Normal tt, loaded)
      ∧ initialLoad (hook loaded) = false
      ∧ fire (hydrateEffect (Some guitar)) (edits true [typed "idCategory" "3"] loaded)
        = (Normal tt, edits true [typed "idCategory" "3"] loaded)
      ∧ initialLoad (hook (snd (openEffect true loaded))) = true
      ∧ fire (hydrateEffect (Some guitar))
          (edits true [typed "idCategory" "3"] (snd (openEffect true loaded)))
        = (Normal tt, w')
      ∧ formData (hook w') = hydratedFormData guitar.
Proof.
  assert (H2 : ∀ s, get guitar "imageUrls" = VStr s → s = "").
  { assert (Habsent : get guitar "imageUrls" = VUndefined) by (vm_compute; reflexivity).
    intros s H. rewrite Habsent in H. discriminate. }
  split; [split; [reflexivity|exact H2]|].
  apply (hydrateEffect_rearmed guitar [typed "idCategory" "3"] (start mounted)
           eq_refl H2).
Defined.

Example hydrateEffect_discards_category :
  get (formData (hook (edits true [typed "idCategory" "3"]
         (snd (openEffect true (snd (fire (hydrateEffect (Some guitar))
                                       (start mounted)))))))) "idCategory"
  = VNum (Some 3%Z)
  ∧ get (formData (hook (snd (fire (hydrateEffect (Some guitar))
         (edits true [typed "idCategory" "3"]
            (snd (openEffect true (snd (fire (hydrateEffect (Some guitar))
                                          (start mounted))))))))))
      "idCategory"
    = VNum (Some 2%Z).
Proof. split; vm_compute; reflexivity. Qed.

(** X10 on a concrete input: the record without [id] and [imageUrls]. *)
Lemma hydrateEffect_formData_witness :
  initialLoad stale = true
  ∧ ∃ r w',
      hydrateEffect (Some drum) stale (start stale) = (r, w')
      ∧ dom (formData (hook w'))
        = (list_to_set ["id"; "name"; "brand"; "model"; "year"; "stock"; "description";
                        "price"; "available"; "idCategory"; "imageUrls"] : gset string)
      ∧ (∀ field, field ∈ "available" :: "id" :: textFields →
           truthy (get drum field) = true →
           get (formData (hook w')) field = get drum field)
      ∧ get (formData (hook w')) "imageUrls" = VArr [].
Proof.
  split; [reflexivity|].
  apply (hydrateEffect_formData drum stale (start stale) eq_refl).
Defined.

(** X11 on a concrete input: the record without [id] is opened and
    submitted; the request carries its [idProduct]. *)
Lemma hydrate_then_submit_witness :
  (initialLoad (hook (start stale)) = true
   ∧ truthy (get drum "idCategory") = true
   ∧ (∀ s, get drum "imageUrls" = VStr s → s = ""))
  ∧ ∃ opened rest w',
      fire (hydrateEffect (Some drum)) (start stale) = (Normal tt, opened)
      ∧ fire (handleSubmit true bothCallbacks echoing) opened = (Normal tt, w')
      ∧ trace w'
        = [PreventDefault;
           UpdateRequest (<["id" := get drum "id" ||: get drum "idProduct"]>
                            (<["idCategory" := get drum "idCategory"]> ∅))]
          ++ rest
      ∧ List.filter isRequest rest = [].
Proof.
  assert (H2 : truthy (get drum "idCategory") = true) by (vm_compute; reflexivity).
  assert (H3 : ∀ s, get drum "imageUrls" = VStr s → s = "").
  { assert (Habsent : get drum "imageUrls" = VUndefined) by (vm_compute; reflexivity).
    intros s H. rewrite Habsent in H. discriminate. }
  split; [split; [reflexivity|split; [exact H2|exact H3]]|].
  apply (hydrate_then_submit bothCallbacks echoing drum (start stale) eq_refl H2 H3).
Defined.

(** X14 on a concrete input: a batch of three whose second upload fails. *)
Lemma handleImageUpload_keeps_aligned_witness :
  aligned (hook (start twoImages))
  ∧ aligned (hook (snd (handleImageUpload false (imagePreviews twoImages) true true
                          failingAfterOne threeFiles (start twoImages)))).
Proof.
  assert (H1 : aligned (hook (start twoImages))) by reflexivity.
  split; [exact H1|].
  apply (handleImageUpload_keeps_aligned false (imagePreviews twoImages) true
           failingAfterOne threeFiles (start twoImages) H1).
Defined.

(** X15 on a concrete input: three files added to a form with two previews. *)
Lemma handleImageUpload_at_most_five_witness :
  length (imagePreviews (hook (start twoImages))) ≤ 5
  ∧ length (imagePreviews
              (hook (snd (fire (λ snap, handleImageUpload false (imagePreviews snap)
                                          true true storing threeFiles)
                            (start twoImages))))) ≤ 5.
Proof.
  assert (H1 : length (imagePreviews (hook (start twoImages))) ≤ 5) by (simpl; lia).
  split; [exact H1|].
  apply (handleImageUpload_at_most_five false true true storing threeFiles
           (start twoImages) H1).
Defined.

(** The form with a local preview and an uploaded image fits together. *)
Lemma twoImages_consistent : consistent (hook (start twoImages)).
Proof.
  split; [reflexivity|]. split; [by eexists|].
  apply (bool_decide_unpack (NoDup (imagePreviews (hook (start twoImages))))).
  vm_compute. exact I.
Defined.

(** X17 on a concrete input: the local preview at index 0 is removed. *)
Lemma removeImage_keeps_consistent_witness :
  consistent (hook (start twoImages))
  ∧ consistent (hook (snd (fire (λ snap, removeImage false snap 0) (start twoImages)))).
Proof.
  split; [exact twoImages_consistent|].
  apply (removeImage_keeps_consistent false 0 (start twoImages) twoImages_consistent).
Defined.

(** X18 on a concrete input: index 7 in a form with two images. *)
Lemma removeImage_out_of_range_witness :
  (length (imagePreviews (hook (start twoImages))) ≤ 7
   ∧ length (imageData (hook (start twoImages))) ≤ 7
   ∧ length (existingImages (hook (start twoImages))) ≤ 7)
  ∧ fire (λ snap, removeImage false snap 7) (start twoImages)
    = (Normal tt, start twoImages).
Proof.
  assert (H1 : length (imagePreviews (hook (start twoImages))) ≤ 7) by (simpl; lia).
  assert (H2 : length (imageData (hook (start twoImages))) ≤ 7) by (simpl; lia).
  assert (H3 : length (existingImages (hook (start twoImages))) ≤ 7) by (simpl; lia).
  split; [split; [exact H1|split; [exact H2|exact H3]]|].
  apply (removeImage_out_of_range 7 (start twoImages) H1 H2 H3).
Defined.

(** X19 on a concrete input: two uploads, a removal and a field edit. *)
Lemma events_keep_aligned_witness :
  (existingImages (hook (start onePreview)) = [] ∧ aligned (hook (start onePreview)))
  ∧ existingImages (hook (foldl (λ w e, step false e w) (start onePreview) cycle)) = []
  ∧ aligned (hook (foldl (λ w e, step false e w) (start onePreview) cycle)).
Proof.
  assert (H2 : aligned (hook (start onePreview))) by reflexivity.
  split; [split; [reflexivity|exact H2]|].
  apply (events_keep_aligned false cycle (start onePreview) eq_refl H2).
Defined.

(** X23 on a concrete input: a third image is uploaded and removed again. *)
Lemma upload_then_remove_witness :
  (length (existingImages (hook (start twoImages)))
     ≤ length (imagePreviews (hook (start twoImages)))
   ∧ length (imageData (hook (start twoImages)))
     = length (imagePreviews (hook (start twoImages)))
   ∧ length (imageFiles (hook (start twoImages)))
     = length (imagePreviews (hook (start twoImages)))
       - length (existingImages (hook (start twoImages)))
   ∧ length (imagePreviews (hook (start twoImages))) < 5
   ∧ String.prefix "image/" (File.type (png "c.png")) = true
   ∧ storing 0 (png "c.png") = inr (answer "https://res.example/c.png"))
  ∧ fire (λ snap, removeImage false snap (length (imagePreviews (hook (start twoImages)))))
      (snd (fire (λ snap, handleImageUpload false (imagePreviews snap) true true
                            storing [png "c.png"]) (start twoImages)))
    = (Normal tt,
       {| hook := twoImages;
          trace := [SetIsUploading true; UploadRequest (png "c.png");
                    SetIsUploading false] |}).
Proof.
  assert (H1 : length (existingImages (hook (start twoImages)))
                 ≤ length (imagePreviews (hook (start twoImages)))) by (simpl; lia).
  assert (H4 : length (imagePreviews (hook (start twoImages))) < 5) by (simpl; lia).
  split; [repeat split; solve [exact H1|exact H4|reflexivity]|].
  apply (upload_then_remove storing (png "c.png") (answer "https://res.example/c.png")
           (start twoImages) H1 eq_refl eq_refl H4 eq_refl eq_refl).
Defined.
